(** * Hero-SMS client: the response protocol layer

    A shallow embedding of [src/client.ts] and [src/errors.ts]: the
    classification of a raw response body ([checkForErrors], [request]) and
    the decoding of the text endpoints ([getBalance], [getNumber],
    [getStatus]).  The HTTP exchange is replaced by its result: every
    endpoint takes the [response.data] value the transport resolved with.

    Layout: [JS] holds the language primitives the client calls (strings,
    numbers, [parseFloat], [parseInt], [split], [startsWith], the two regular
    expressions), [Errors] is errors.ts, [Client] is client.ts. *)

From Stdlib Require Import List String Ascii Bool NArith ZArith Lia.
From Stdlib Require Import Floats.SpecFloat.
Import ListNotations.

(* ------------------------------------------------------------------------ *)
(** * The JavaScript primitives used by the client *)

Module JS.

(** A string is a sequence of UTF-16 code units. *)
Definition jsstring := list N.

(** A literal of the source text (ASCII) as a string value. *)
Definition str (s : string) : jsstring :=
  map N_of_ascii (list_ascii_of_string s).

(** [a === b] on strings. *)
Fixpoint strict_eq (a b : jsstring) : bool :=
  match a, b with
  | [], [] => true
  | x :: a', y :: b' => (x =? y)%N && strict_eq a' b'
  | _, _ => false
  end.

(** [s.startsWith(prefix)]. *)
Fixpoint startsWith (s prefix : jsstring) {struct prefix} : bool :=
  match prefix with
  | [] => true
  | p :: prefix' =>
      match s with
      | [] => false
      | c :: s' => (c =? p)%N && startsWith s' prefix'
      end
  end.

(** [s.split(sep)] for a separator of one code unit: the fields between the
    separators, in order; [cur] is the field being read, reversed. *)
Fixpoint split_from (sep : N) (cur : jsstring) (s : jsstring) : list jsstring :=
  match s with
  | [] => [rev cur]
  | c :: s' =>
      if (c =? sep)%N then rev cur :: split_from sep [] s'
      else split_from sep (c :: cur) s'
  end.

Definition split (s : jsstring) (sep : N) : list jsstring :=
  split_from sep [] s.

Definition colon : N := 58.

(** [x || d] where [x] is a string or [undefined]: the empty string and
    [undefined] are the two falsy cases. *)
Definition or_else (x : option jsstring) (d : jsstring) : jsstring :=
  match x with
  | Some (c :: s) => c :: s
  | _ => d
  end.

(** ** Character classes *)

Definition isDigit (c : N) : bool := (48 <=? c)%N && (c <=? 57)%N.

Definition digitValue (c : N) : Z := Z.of_N c - 48.

(** LineTerminator: LF, CR, LS, PS. *)
Definition isLineTerminator (c : N) : bool :=
  (c =? 10)%N || (c =? 13)%N || (c =? 8232)%N || (c =? 8233)%N.

(** WhiteSpace (TAB, VT, FF, ZWNBSP and the space separators) or
    LineTerminator: what [parseFloat] and [parseInt] skip at the start. *)
Definition isStrWhiteSpaceChar (c : N) : bool :=
  (c =? 9)%N || (c =? 11)%N || (c =? 12)%N || (c =? 32)%N || (c =? 160)%N
  || (c =? 5760)%N || ((8192 <=? c)%N && (c <=? 8202)%N)
  || (c =? 8239)%N || (c =? 8287)%N || (c =? 12288)%N || (c =? 65279)%N
  || isLineTerminator c.

(** The regular expression atom [.] (no [s] flag). *)
Definition dot (c : N) : bool := negb (isLineTerminator c).

(** The longest prefix whose code units satisfy [p], and what follows it. *)
Fixpoint span (p : N -> bool) (s : jsstring) : jsstring * jsstring :=
  match s with
  | [] => ([], [])
  | c :: s' =>
      if p c then let '(a, b) := span p s' in (c :: a, b) else ([], s)
  end.

Fixpoint dropWhile (p : N -> bool) (s : jsstring) : jsstring :=
  match s with
  | [] => []
  | c :: s' => if p c then dropWhile p s' else s
  end.

(** ** Numbers

    A Number is an IEEE 754 binary64 value: [spec_float] at precision 53
    and maximal exponent 1024 (one NaN, signed zeros and infinities). *)

Definition number := spec_float.
Definition prec : Z := 53.
Definition emax : Z := 1024.

Definition NaN : number := S754_nan.

(** The Number for the mathematical value [(-1)^neg * m * 10^e], rounded to
    nearest, ties to even.  For a negative exponent the quotient
    [m / 10^-e] is taken with enough bits and its remainder located, as in
    the division of two floats. *)
Definition roundDecimal (neg : bool) (m : Z) (e : Z) : number :=
  match m with
  | Zpos p =>
      match e with
      | Zneg k =>
          let '(q, e', l) :=
            SFdiv_core_binary prec emax (Zpos p) 0 (Z.pow_pos 10 k) 0 in
          binary_round_aux prec emax neg q e' l
      | _ =>
          match (Zpos p * 10 ^ e)%Z with
          | Zpos v => binary_round prec emax neg v 0
          | _ => S754_zero neg
          end
      end
  | _ => S754_zero neg
  end.

(** The Number for a mathematical integer. *)
Definition ofInteger (neg : bool) (m : Z) : number := roundDecimal neg m 0.

(** The mathematical value of a run of decimal digits. *)
Definition digitsValue (ds : jsstring) : Z :=
  fold_left (fun acc c => acc * 10 + digitValue c)%Z ds 0%Z.

(** An optional sign: whether it is [-], and the text after it. *)
Definition readSign (s : jsstring) : bool * jsstring :=
  match s with
  | c :: s' =>
      if (c =? 43)%N then (false, s')
      else if (c =? 45)%N then (true, s')
      else (false, s)
  | [] => (false, s)
  end.

(** ExponentPart, when present and complete: [e] or [E], an optional sign
    and at least one digit.  Otherwise the exponent is 0. *)
Definition readExponent (s : jsstring) : Z :=
  match s with
  | c :: s' =>
      if (c =? 101)%N || (c =? 69)%N then
        let '(neg, s'') := readSign s' in
        match fst (span isDigit s'') with
        | [] => 0%Z
        | ds => if neg then (- digitsValue ds)%Z else digitsValue ds
        end
      else 0%Z
  | [] => 0%Z
  end.

(** The longest prefix that is a StrUnsignedDecimalLiteral, as a Number of
    sign [neg]; NaN when there is none. *)
Definition readUnsignedDecimal (neg : bool) (s : jsstring) : number :=
  if startsWith s (str "Infinity") then S754_infinity neg
  else
    let '(ip, r1) := span isDigit s in
    if startsWith r1 (str ".") then
      let '(fp, r2) := span isDigit (tl r1) in
      match ip, fp with
      | [], [] => NaN
      | _, _ =>
          roundDecimal neg (digitsValue (ip ++ fp))
                       (readExponent r2 - Z.of_nat (List.length fp))
      end
    else
      match ip with
      | [] => NaN
      | _ => roundDecimal neg (digitsValue ip) (readExponent r1)
      end.

(** [parseFloat(s)]: skip leading white space, then read the longest prefix
    that is a StrDecimalLiteral. *)
Definition parseFloat (s : jsstring) : number :=
  let '(neg, s') := readSign (dropWhile isStrWhiteSpaceChar s) in
  readUnsignedDecimal neg s'.

(** [parseInt(s, 10)]: skip leading white space, an optional sign, then the
    longest run of decimal digits; NaN when the run is empty. *)
Definition parseInt10 (s : jsstring) : number :=
  let '(neg, s') := readSign (dropWhile isStrWhiteSpaceChar s) in
  match fst (span isDigit s') with
  | [] => NaN
  | ds => ofInteger neg (digitsValue ds)
  end.

(** ** Regular expressions

    The two patterns of the client are sequences of pattern characters and
    capturing groups [(C+)] over a character class [C]; [+] is greedy and
    gives characters back when what follows fails. *)

Inductive RegExpNode :=
| Char (c : N)
| PlusGroup (cls : N -> bool).

Definition RegExp := list RegExpNode.

(** [(C+)] followed by the continuation [k]: the longest run first, then
    shorter ones; [cur] is the run read so far, reversed.  The result is the
    list of captures, this group's first. *)
Fixpoint greedy (cls : N -> bool) (k : jsstring -> option (list jsstring))
                (cur : jsstring) (s : jsstring) : option (list jsstring) :=
  match s with
  | [] => None
  | c :: s' =>
      if cls c then
        match greedy cls k (c :: cur) s' with
        | Some caps => Some caps
        | None =>
            match k s' with
            | Some caps => Some (rev (c :: cur) :: caps)
            | None => None
            end
        end
      else None
  end.

(** A match of the pattern starting exactly at the head of [s]. *)
Fixpoint matchAt (r : RegExp) (s : jsstring) : option (list jsstring) :=
  match r with
  | [] => Some []
  | Char c :: r' =>
      match s with
      | [] => None
      | x :: s' => if (x =? c)%N then matchAt r' s' else None
      end
  | PlusGroup cls :: r' => greedy cls (matchAt r') [] s
  end.

(** [s.match(r)] for a pattern without the [g] flag: the leftmost match,
    as its captures [match[1]], [match[2]], ...; [None] is [null]. *)
Fixpoint String_match (s : jsstring) (r : RegExp) : option (list jsstring) :=
  match matchAt r s with
  | Some caps => Some caps
  | None =>
      match s with
      | [] => None
      | _ :: s' => String_match s' r
      end
  end.

Definition literal (s : string) : RegExp := map Char (str s).

(** Values of the language, as far as the transport can produce them. *)
#[local] Unset Elimination Schemes.
Inductive JSValue :=
| VUndefined
| VNull
| VBoolean (b : bool)
| VNumber (n : number)
| VString (s : jsstring)
| VArray (items : list JSValue)
| VObject (props : list (jsstring * JSValue)).
#[local] Set Elimination Schemes.

(** [typeof v === 'string']. *)
Definition typeof_string (v : JSValue) : bool :=
  match v with
  | VString _ => true
  | _ => false
  end.

End JS.

(* ------------------------------------------------------------------------ *)
(** * errors.ts *)

Module Errors.
Import JS.

(** The class an error object was built by: its prototype and its [name]. *)
Inductive ErrorClass :=
| HeroSMSErrorClass
| NoNumbersErrorClass
| AuthenticationErrorClass
| ActivationNotFoundErrorClass
| EarlyCancelErrorClass
| WrongMaxPriceErrorClass
| BannedErrorClass.

(** A message: a string, or a string followed by the rendering of a Number
    (the template [`...${minimumPrice}`]; the digits the rendering produces
    are not expanded here). *)
Inductive Message :=
| Msg (s : jsstring)
| MsgNumber (s : jsstring) (n : number).

Record HeroSMSError := mkHeroSMSError {
  name : ErrorClass;
  code : jsstring;
  message : Message;
  rawResponse : jsstring;
  minimumPrice : option number;
  bannedUntil : option jsstring
}.

Definition new_HeroSMSError (code : jsstring) (message : jsstring)
                            (rawResponse : jsstring) : HeroSMSError :=
  mkHeroSMSError HeroSMSErrorClass code (Msg message) rawResponse None None.

Definition new_NoNumbersError (rawResponse : jsstring) : HeroSMSError :=
  mkHeroSMSError NoNumbersErrorClass (str "NO_NUMBERS")
    (Msg (str "No numbers available for the requested service and country"))
    rawResponse None None.

Definition new_AuthenticationError (code : jsstring) (rawResponse : jsstring)
  : HeroSMSError :=
  let message :=
    if strict_eq code (str "NO_KEY") then str "API key is missing"
    else str "API key is invalid" in
  mkHeroSMSError AuthenticationErrorClass code (Msg message) rawResponse
                 None None.

Definition new_ActivationNotFoundError (rawResponse : jsstring)
  : HeroSMSError :=
  mkHeroSMSError ActivationNotFoundErrorClass (str "NO_ACTIVATION")
    (Msg (str "Activation not found")) rawResponse None None.

Definition new_EarlyCancelError (rawResponse : jsstring) : HeroSMSError :=
  mkHeroSMSError EarlyCancelErrorClass (str "EARLY_CANCEL_DENIED")
    (Msg (str "Cannot cancel activation within the first 2 minutes"))
    rawResponse None None.

Definition new_WrongMaxPriceError (rawResponse : jsstring)
                                  (minimumPrice : number) : HeroSMSError :=
  mkHeroSMSError WrongMaxPriceErrorClass (str "WRONG_MAX_PRICE")
    (MsgNumber (str "Maximum price is too low. Minimum price: ") minimumPrice)
    rawResponse (Some minimumPrice) None.

Definition new_BannedError (rawResponse : jsstring) (bannedUntil : jsstring)
  : HeroSMSError :=
  mkHeroSMSError BannedErrorClass (str "BANNED")
    (Msg (str "Account is banned until " ++ bannedUntil))
    rawResponse None (Some bannedUntil).

Definition ERROR_MESSAGES : list (jsstring * jsstring) :=
  [ (str "BAD_ACTION", str "Incorrect action specified");
    (str "BAD_KEY", str "Incorrect API key");
    (str "NO_KEY", str "API key is missing");
    (str "ERROR_SQL", str "Server database error");
    (str "BAD_SERVICE", str "Incorrect service specified");
    (str "BAD_STATUS", str "Incorrect status specified");
    (str "NO_NUMBERS", str "No numbers available");
    (str "NO_ACTIVATION", str "Activation not found");
    (str "WRONG_ACTIVATION_ID", str "Invalid activation ID");
    (str "WRONG_MAX_PRICE", str "Maximum price is too low");
    (str "EARLY_CANCEL_DENIED", str "Cannot cancel within first 2 minutes");
    (str "CHANNELS_LIMIT", str "Account channels limit reached");
    (str "OPERATORS_NOT_FOUND", str "No operators found");
    (str "ORDER_ALREADY_EXISTS", str "Order already exists");
    (str "NO_ACTIVATIONS", str "No activations found") ].

(** [table[key]] on a record of strings; [None] is [undefined]. *)
Fixpoint lookup (table : list (jsstring * jsstring)) (key : jsstring)
  : option jsstring :=
  match table with
  | [] => None
  | (k, v) :: table' => if strict_eq key k then Some v else lookup table' key
  end.

End Errors.

(* ------------------------------------------------------------------------ *)
(** * types.ts: the results of the text endpoints *)

Module Types.
Import JS.

Record ParsedNumberResponse := {
  activationId : number;
  phoneNumber : jsstring
}.

Inductive StatusLiteral :=
| STATUS_WAIT_CODE
| STATUS_WAIT_RETRY
| STATUS_WAIT_RESEND
| STATUS_CANCEL
| STATUS_OK.

(** [code] is optional: [None] is an object without the property. *)
Record ParsedStatusResponse := {
  status : StatusLiteral;
  code : option jsstring
}.

End Types.

(* ------------------------------------------------------------------------ *)
(** * client.ts *)

Module Client.
Import JS Errors Types.

(** How a call ends: with a value, with a thrown [HeroSMSError], or with the
    TypeError of calling a string method on a value that has none. *)
Inductive outcome (A : Type) :=
| Return (a : A)
| Throw (e : HeroSMSError)
| ThrowTypeError.

Arguments Return {A} a.
Arguments Throw {A} e.
Arguments ThrowTypeError {A}.

Definition bind {A B} (m : outcome A) (k : A -> outcome B) : outcome B :=
  match m with
  | Return a => k a
  | Throw e => Throw e
  | ThrowTypeError => ThrowTypeError
  end.

Notation "x <- m ;; k" := (bind m (fun x => k))
  (at level 61, m at next level, right associativity).

Definition errorCodes : list jsstring :=
  map str
    [ "BAD_ACTION"; "BAD_KEY"; "NO_KEY"; "ERROR_SQL"; "BAD_SERVICE";
      "BAD_STATUS"; "NO_NUMBERS"; "NO_ACTIVATION"; "WRONG_ACTIVATION_ID";
      "EARLY_CANCEL_DENIED"; "CHANNELS_LIMIT"; "OPERATORS_NOT_FOUND";
      "ORDER_ALREADY_EXISTS"; "NO_ACTIVATIONS" ]%string.

(** The [switch (code)] of the loop body: the error thrown for a matched
    code. *)
Definition errorFor (code response : jsstring) : HeroSMSError :=
  if strict_eq code (str "NO_NUMBERS") then new_NoNumbersError response
  else if strict_eq code (str "BAD_KEY") || strict_eq code (str "NO_KEY")
  then new_AuthenticationError code response
  else if strict_eq code (str "NO_ACTIVATION")
  then new_ActivationNotFoundError response
  else if strict_eq code (str "EARLY_CANCEL_DENIED")
  then new_EarlyCancelError response
  else new_HeroSMSError code (or_else (lookup ERROR_MESSAGES code) code)
                        response.

(** [for (const code of codes) { if (...) { switch ... } }]. *)
Fixpoint forCodes (codes : list jsstring) (response : jsstring)
  : outcome unit :=
  match codes with
  | [] => Return tt
  | code :: codes' =>
      if strict_eq response code || startsWith response code
      then Throw (errorFor code response)
      else forCodes codes' response
  end.

Definition checkForErrors (response : jsstring) : outcome unit :=
  if startsWith response (str "BANNED:") then
    let bannedUntil :=
      or_else (nth_error (split response colon) 1) (str "unknown") in
    Throw (new_BannedError response bannedUntil)
  else if startsWith response (str "WRONG_MAX_PRICE:") then
    let minPrice :=
      parseFloat (or_else (nth_error (split response colon) 1) (str "0")) in
    Throw (new_WrongMaxPriceError response minPrice)
  else forCodes errorCodes response.

(** [request]: [data] is [response.data] of the transport's answer. *)
Definition request (data : JSValue) : outcome JSValue :=
  _ <- match data with
       | VString s => checkForErrors s
       | _ => Return tt
       end ;;
  Return data.

(** A method call [response.m(...)] of a string method: a TypeError when
    the receiver is not a string. *)
Definition asString {A} (v : JSValue) (k : jsstring -> outcome A)
  : outcome A :=
  match v with
  | VString s => k s
  | _ => ThrowTypeError
  end.

(** [new HeroSMSError('PARSE_ERROR', `${what}${response}`, response)] *)
Definition parseError (what : string) (response : jsstring) : HeroSMSError :=
  new_HeroSMSError (str "PARSE_ERROR") (str what ++ response) response.

(** [/ACCESS_BALANCE:(.+)/] *)
Definition balancePattern : RegExp :=
  literal "ACCESS_BALANCE:" ++ [PlusGroup dot].

(** [match[1]] is the head of the captures; the pattern has one group, so
    a match always has it. *)
Definition getBalance (data : JSValue) : outcome number :=
  response <- request data ;;
  asString response (fun response =>
    match String_match response balancePattern with
    | Some (m1 :: _) => Return (parseFloat m1)
    | _ => Throw (parseError "Unexpected balance response: " response)
    end).

(** [/ACCESS_NUMBER:(\d+):(.+)/] *)
Definition numberPattern : RegExp :=
  literal "ACCESS_NUMBER:" ++ [PlusGroup isDigit; Char colon; PlusGroup dot].

Definition getNumber (data : JSValue) : outcome ParsedNumberResponse :=
  response <- request data ;;
  asString response (fun response =>
    match String_match response numberPattern with
    | Some (m1 :: m2 :: _) =>
        Return {| activationId := parseInt10 m1; phoneNumber := m2 |}
    | _ => Throw (parseError "Unexpected number response: " response)
    end).

Definition getNumberV2 (data : JSValue) : outcome JSValue := request data.

Definition setStatus (data : JSValue) : outcome JSValue := request data.

Definition getStatus (data : JSValue) : outcome ParsedStatusResponse :=
  response <- request data ;;
  asString response (fun response =>
    if startsWith response (str "STATUS_OK:") then
      Return {| status := STATUS_OK;
                code := nth_error (split response colon) 1 |}
    else if startsWith response (str "STATUS_WAIT_RETRY:") then
      Return {| status := STATUS_WAIT_RETRY;
                code := nth_error (split response colon) 1 |}
    else if strict_eq response (str "STATUS_WAIT_CODE") then
      Return {| status := STATUS_WAIT_CODE; code := None |}
    else if strict_eq response (str "STATUS_WAIT_RESEND") then
      Return {| status := STATUS_WAIT_RESEND; code := None |}
    else if strict_eq response (str "STATUS_CANCEL") then
      Return {| status := STATUS_CANCEL; code := None |}
    else Throw (parseError "Unexpected status response: " response)).

Definition getStatusV2 (data : JSValue) : outcome JSValue := request data.
Definition getActiveActivations (data : JSValue) : outcome JSValue :=
  request data.
Definition getHistory (data : JSValue) : outcome JSValue := request data.
Definition getCountries (data : JSValue) : outcome JSValue := request data.
Definition getServicesList (data : JSValue) : outcome JSValue := request data.
Definition getOperators (data : JSValue) : outcome JSValue := request data.
Definition getPrices (data : JSValue) : outcome JSValue := request data.
Definition getTopCountriesByService (data : JSValue) : outcome JSValue :=
  request data.
Definition getTopCountriesByServiceRank (data : JSValue) : outcome JSValue :=
  request data.

End Client.

(* ------------------------------------------------------------------------ *)
(** * client.ts: what each method sends

    The methods of [HeroSMSClient] as a caller uses them: each builds its
    query parameters, sends them through the client's transport and hands
    the answer to the function of [Client] that classifies and decodes it.
    [Client.request] and the functions built on it are the part of a method
    after the transport has answered. *)

Module Api.
Import JS Errors Types.

(** A plain object: its own properties in insertion order, keys unique. *)
Definition Obj := list (jsstring * JSValue).

(** [o[k]]; [None] is [undefined]. *)
Fixpoint getProp (o : Obj) (k : jsstring) : option JSValue :=
  match o with
  | [] => None
  | (k', v) :: o' => if strict_eq k' k then Some v else getProp o' k
  end.

(** [o[k] = v]: an existing property keeps its place. *)
Fixpoint setProp (o : Obj) (k : jsstring) (v : JSValue) : Obj :=
  match o with
  | [] => [(k, v)]
  | (k', v') :: o' =>
      if strict_eq k' k then (k', v) :: o' else (k', v') :: setProp o' k v
  end.

(** [{ ...o, ...src }]: the properties of [src] assigned onto [o] in
    order. *)
Definition spread (o src : Obj) : Obj :=
  fold_left (fun acc kv => setProp acc (fst kv) (snd kv)) src o.

(** [if (x !== undefined) o[k] = x], for a number. *)
Definition setIfDefined (o : Obj) (k : string) (x : option number) : Obj :=
  match x with
  | Some n => setProp o (str k) (VNumber n)
  | None => o
  end.

(** [if (x) o[k] = x], for a string: the empty string is falsy. *)
Definition setIfTruthy (o : Obj) (k : string) (x : option jsstring) : Obj :=
  match x with
  | Some (c :: s) => setProp o (str k) (VString (c :: s))
  | _ => o
  end.

(** Whether a Number is truthy: [0], [-0] and [NaN] are not. *)
Definition truthyNumber (n : number) : bool :=
  match n with
  | S754_zero _ | S754_nan => false
  | _ => true
  end.

(** types.ts: [enum ActivationStatusCode]. *)
Inductive ActivationStatusCode :=
| SMS_SENT
| REQUEST_RESEND
| COMPLETE
| CANCEL.

Definition statusValue (s : ActivationStatusCode) : number :=
  ofInteger false
    match s with
    | SMS_SENT => 1
    | REQUEST_RESEND => 3
    | COMPLETE => 6
    | CANCEL => 8
    end.

Module GetNumberOptions.
Record t := {
  service : jsstring;
  country : number;
  maxPrice : option number;
  ref : option jsstring;
  operator : option jsstring
}.
End GetNumberOptions.

Module GetHistoryOptions.
Record t := {
  start : option number;
  end_ : option number;
  offset : option number;
  size : option number
}.
End GetHistoryOptions.

Module GetServicesListOptions.
Record t := {
  country : option number;
  lang : option jsstring
}.
End GetServicesListOptions.

Module GetPricesOptions.
Record t := {
  service : option jsstring;
  country : option number
}.
End GetPricesOptions.

Module GetTopCountriesOptions.
Record t := {
  service : option jsstring;
  freePrice : option bool
}.
End GetTopCountriesOptions.

Module HeroSMSClientOptions.
Record t := {
  apiKey : jsstring;
  baseUrl : option jsstring;
  timeout : option number
}.
End HeroSMSClientOptions.

(** The configuration given to [axios.create]. *)
Record AxiosConfig := {
  baseURL : jsstring;
  timeout : number
}.

Definition clientConfig (options : HeroSMSClientOptions.t) : AxiosConfig :=
  {| baseURL :=
       or_else (HeroSMSClientOptions.baseUrl options)
               (str "https://hero-sms.com/stubs/handler_api.php");
     timeout :=
       match HeroSMSClientOptions.timeout options with
       | Some n => if truthyNumber n then n else ofInteger false 30000
       | None => ofInteger false 30000
       end |}.

(** The parameters of a request:
    [{ api_key: this.apiKey, action, ...params }]. *)
Definition requestParams (apiKey : jsstring) (action : string) (params : Obj)
  : Obj :=
  spread [(str "api_key", VString apiKey); (str "action", VString (str action))]
         params.

Definition getNumberParams (options : GetNumberOptions.t) : Obj :=
  let params :=
    [(str "service", VString (GetNumberOptions.service options));
     (str "country", VNumber (GetNumberOptions.country options))] in
  let params :=
    setIfDefined params "maxPrice" (GetNumberOptions.maxPrice options) in
  let params := setIfTruthy params "ref" (GetNumberOptions.ref options) in
  setIfTruthy params "operator" (GetNumberOptions.operator options).

Definition setStatusParams (id : number) (status : ActivationStatusCode)
  : Obj :=
  [(str "id", VNumber id); (str "status", VNumber (statusValue status))].

Definition getHistoryParams (options : GetHistoryOptions.t) : Obj :=
  let params := setIfDefined [] "start" (GetHistoryOptions.start options) in
  let params := setIfDefined params "end" (GetHistoryOptions.end_ options) in
  let params :=
    setIfDefined params "offset" (GetHistoryOptions.offset options) in
  setIfDefined params "size" (GetHistoryOptions.size options).

Definition getServicesListParams (options : GetServicesListOptions.t)
  : Obj :=
  let params :=
    setIfDefined [] "country" (GetServicesListOptions.country options) in
  setIfTruthy params "lang" (GetServicesListOptions.lang options).

Definition getOperatorsParams (country : option number) : Obj :=
  setIfDefined [] "country" country.

Definition getPricesParams (options : GetPricesOptions.t) : Obj :=
  let params := setIfTruthy [] "service" (GetPricesOptions.service options) in
  setIfDefined params "country" (GetPricesOptions.country options).

Definition getTopCountriesParams (options : GetTopCountriesOptions.t)
  : Obj :=
  let params :=
    setIfTruthy [] "service" (GetTopCountriesOptions.service options) in
  match GetTopCountriesOptions.freePrice options with
  | Some b => setProp params (str "freePrice") (VBoolean b)
  | None => params
  end.

Section WithTransport.

(** What the transport rejects with (network failure, HTTP status,
    timeout). *)
Variable TransportError : Type.

(** [instance.get('', { params })] of an axios instance: the
    [response.data] it resolves with, or its rejection. *)
Definition Transport := Obj -> TransportError + JSValue.

(** [axios.create]. *)
Variable axios_create : AxiosConfig -> Transport.

Record HeroSMSClient := {
  apiKey : jsstring;
  httpClient : Transport
}.

Definition new_HeroSMSClient (options : HeroSMSClientOptions.t)
  : HeroSMSClient :=
  {| apiKey := HeroSMSClientOptions.apiKey options;
     httpClient := axios_create (clientConfig options) |}.

(** A method: [await this.request(action, params)] and what the method
    does with the answer; a rejection of the transport ends the call. *)
Definition send {A} (c : HeroSMSClient) (action : string) (params : Obj)
           (k : JSValue -> Client.outcome A)
  : TransportError + Client.outcome A :=
  match httpClient c (requestParams (apiKey c) action params) with
  | inl err => inl err
  | inr data => inr (k data)
  end.

Definition getBalance (c : HeroSMSClient) :=
  send c "getBalance" [] Client.getBalance.

Definition getNumber (c : HeroSMSClient) (options : GetNumberOptions.t) :=
  send c "getNumber" (getNumberParams options) Client.getNumber.

Definition getNumberV2 (c : HeroSMSClient) (options : GetNumberOptions.t) :=
  send c "getNumberV2" (getNumberParams options) Client.getNumberV2.

Definition setStatus (c : HeroSMSClient) (id : number)
           (status : ActivationStatusCode) :=
  send c "setStatus" (setStatusParams id status) Client.setStatus.

Definition markReady (c : HeroSMSClient) (id : number) :=
  setStatus c id SMS_SENT.

Definition requestResend (c : HeroSMSClient) (id : number) :=
  setStatus c id REQUEST_RESEND.

Definition complete (c : HeroSMSClient) (id : number) :=
  setStatus c id COMPLETE.

Definition cancel (c : HeroSMSClient) (id : number) :=
  setStatus c id CANCEL.

Definition getStatus (c : HeroSMSClient) (id : number) :=
  send c "getStatus" [(str "id", VNumber id)] Client.getStatus.

Definition getStatusV2 (c : HeroSMSClient) (id : number) :=
  send c "getStatusV2" [(str "id", VNumber id)] Client.getStatusV2.

Definition getActiveActivations (c : HeroSMSClient) :=
  send c "getActiveActivations" [] Client.getActiveActivations.

Definition getHistory (c : HeroSMSClient) (options : GetHistoryOptions.t) :=
  send c "getHistory" (getHistoryParams options) Client.getHistory.

Definition getCountries (c : HeroSMSClient) :=
  send c "getCountries" [] Client.getCountries.

Definition getServicesList (c : HeroSMSClient)
           (options : GetServicesListOptions.t) :=
  send c "getServicesList" (getServicesListParams options)
       Client.getServicesList.

Definition getOperators (c : HeroSMSClient) (country : option number) :=
  send c "getOperators" (getOperatorsParams country) Client.getOperators.

Definition getPrices (c : HeroSMSClient) (options : GetPricesOptions.t) :=
  send c "getPrices" (getPricesParams options) Client.getPrices.

Definition getTopCountriesByService (c : HeroSMSClient)
           (options : GetTopCountriesOptions.t) :=
  send c "getTopCountriesByService" (getTopCountriesParams options)
       Client.getTopCountriesByService.

Definition getTopCountriesByServiceRank (c : HeroSMSClient)
           (options : GetTopCountriesOptions.t) :=
  send c "getTopCountriesByServiceRank" (getTopCountriesParams options)
       Client.getTopCountriesByServiceRank.

End WithTransport.

Arguments Build_HeroSMSClient {TransportError}.
Arguments apiKey {TransportError}.
Arguments httpClient {TransportError}.
Arguments new_HeroSMSClient {TransportError}.
Arguments send {TransportError A}.
Arguments getBalance {TransportError}.
Arguments getNumber {TransportError}.
Arguments getNumberV2 {TransportError}.
Arguments setStatus {TransportError}.
Arguments markReady {TransportError}.
Arguments requestResend {TransportError}.
Arguments complete {TransportError}.
Arguments cancel {TransportError}.
Arguments getStatus {TransportError}.
Arguments getStatusV2 {TransportError}.
Arguments getActiveActivations {TransportError}.
Arguments getHistory {TransportError}.
Arguments getCountries {TransportError}.
Arguments getServicesList {TransportError}.
Arguments getOperators {TransportError}.
Arguments getPrices {TransportError}.
Arguments getTopCountriesByService {TransportError}.
Arguments getTopCountriesByServiceRank {TransportError}.

End Api.

(* ------------------------------------------------------------------------ *)
(** * Properties *)

Import JS Errors Types Client.

(** ** Vocabulary of the statements *)

Definition notColon (c : N) : bool := negb (c =? colon)%N.

(** The text of [s] before its first colon (all of [s] when it has none):
    the first field of [s.split(':')]. *)
Definition upToColon (s : jsstring) : jsstring := fst (span notColon s).

(** Whether [c] can be the first code unit of a text from which
    [parseFloat] reads a number: white space, a sign, a digit, the decimal
    point or the [I] of [Infinity]. *)
Definition numeralStart (c : N) : bool :=
  isStrWhiteSpaceChar c || isDigit c
  || (c =? 43)%N || (c =? 45)%N || (c =? 46)%N || (c =? 73)%N.

(** The text after a capture ends the line: it is empty or begins with a
    line terminator. *)
Definition lineEnd (rest : jsstring) : bool :=
  match rest with
  | [] => true
  | c :: _ => isLineTerminator c
  end.

(** [s] begins with [ACCESS_BALANCE:] and one more character of the same
    line. *)
Definition balanceAt (s : jsstring) : Prop :=
  exists c post,
    s = str "ACCESS_BALANCE:" ++ c :: post /\ isLineTerminator c = false.

(** [s] begins with [ACCESS_NUMBER:], one or more digits, a colon and one
    more character of the same line. *)
Definition numberAt (s : jsstring) : Prop :=
  exists ds c post,
    s = str "ACCESS_NUMBER:" ++ ds ++ colon :: c :: post
    /\ ds <> [] /\ forallb isDigit ds = true
    /\ isLineTerminator c = false.


(** In [pre ++ post], no suffix that starts inside [pre] has the shape
    [P]: an occurrence at [post] is the leftmost one. *)
Definition firstAt (P : jsstring -> Prop) (pre post : jsstring) : Prop :=
  forall pre1 pre2, pre = pre1 ++ pre2 -> pre2 <> [] -> ~ P (pre2 ++ post).






(** The prefixes that make a body an error: the two sentinels and the
    plain codes but the last, which the code before it shadows. *)
Definition errorPrefixes : list jsstring :=
  str "BANNED:" :: str "WRONG_MAX_PRICE:" :: removelast errorCodes.

(** The codes a thrown error can carry. *)
Definition thrownCodes : list jsstring :=
  str "BANNED" :: str "WRONG_MAX_PRICE" :: removelast errorCodes.

(** The first letters of the error prefixes: B, C, E, N, O, W. *)
Definition errorInitial (c : N) : bool :=
  (c =? 66)%N || (c =? 67)%N || (c =? 69)%N || (c =? 78)%N
  || (c =? 79)%N || (c =? 87)%N.

(** The value of the Number [x] is the integer [z]: for a finite
    [(-1)^s * m * 2^e], [z = (-1)^s * m * 2^e] when the exponent is not
    negative and [z * 2^-e = (-1)^s * m] when it is not positive. *)
Definition exactly (x : number) (z : Z) : Prop :=
  match x with
  | S754_zero _ => z = 0%Z
  | S754_finite s m e =>
      ((0 <= e)%Z -> z = ((if s then Z.neg m else Z.pos m) * 2 ^ e)%Z)
      /\ ((e <= 0)%Z ->
          (if s then Z.neg m else Z.pos m) = (z * 2 ^ (- e))%Z)
  | _ => False
  end.

(** The Number [x] is not NaN and its sign bit is [s]. *)
Definition hasSign (s : bool) (x : number) : Prop :=
  match x with
  | S754_nan => False
  | S754_zero s' | S754_infinity s' | S754_finite s' _ _ => s' = s
  end.

(** The Number [x] is not NaN and not negative (it may be infinite). *)
Definition nonNegative (x : number) : Prop := hasSign false x.

(** Whether [parseFloat] finds a number at the start of [s]: after white
    space and an optional sign come [Infinity], a digit, or a point and a
    digit. *)
Definition hasNumber (s : jsstring) : bool :=
  let u := snd (readSign (dropWhile isStrWhiteSpaceChar s)) in
  startsWith u (str "Infinity")
  || match u with
     | c :: r =>
         isDigit c
         || ((c =? 46)%N
             && match r with
                | d :: _ => isDigit d
                | [] => false
                end)
     | [] => false
     end.

(** The method [method], called on a client with the key [key], gives the
    transport exactly the parameters [P], whatever the transport is: a
    rejection ends the call, an answer is handed to [k]. *)
Definition sendsTo {A : Type}
           (method : forall E : Type, Api.HeroSMSClient E -> E + outcome A)
           (key : jsstring) (P : Api.Obj) (k : JSValue -> outcome A) : Prop :=
  forall (E : Type) (t : Api.Transport E),
    method E (Api.Build_HeroSMSClient key t)
    = match t P with
      | inl err => inl err
      | inr data => inr (k data)
      end.

(** The parameters [P] hold the key and the action. *)
Definition keyed (key : jsstring) (action : string) (P : Api.Obj) : Prop :=
  Api.getProp P (str "api_key") = Some (VString key)
  /\ Api.getProp P (str "action") = Some (VString (str action)).

(** The method sends, for every transport, one parameter object that holds
    the key and the action [action]. *)
Definition carries {A : Type}
           (method : forall E : Type, Api.HeroSMSClient E -> E + outcome A)
           (key : jsstring) (action : string) (k : JSValue -> outcome A)
  : Prop :=
  exists P, sendsTo method key P k /\ keyed key action P.

(** What a string option contributes to a query under the test [if (x)]:
    itself when it is a non-empty string, nothing otherwise. *)
Definition whenTruthy (x : option jsstring) : option JSValue :=
  match x with
  | Some (c :: s) => Some (VString (c :: s))
  | _ => None
  end.

(** ** Strings *)

Lemma strict_eq_refl (a : jsstring) : strict_eq a a = true.
Proof.
  induction a as [|x a IH]; simpl; [reflexivity|].
  now rewrite N.eqb_refl, IH.
Qed.

Lemma strict_eq_true (a b : jsstring) : strict_eq a b = true <-> a = b.
Proof.
  split; [|intros ->; apply strict_eq_refl].
  revert b; induction a as [|x a IH]; intros [|y b]; simpl; try easy.
  intros H; apply andb_true_iff in H as [Hx Hab].
  apply N.eqb_eq in Hx; subst; f_equal; auto.
Qed.

Lemma startsWith_app (p t : jsstring) : startsWith (p ++ t) p = true.
Proof.
  induction p as [|c p IH]; simpl; [reflexivity|].
  now rewrite N.eqb_refl, IH.
Qed.

Lemma startsWith_true (s p : jsstring) :
  startsWith s p = true <-> exists t, s = p ++ t.
Proof.
  split.
  - revert s; induction p as [|c p IH]; intros s H.
    + now exists s.
    + destruct s as [|x s]; simpl in H; [discriminate|].
      apply andb_true_iff in H as [Hx Hs].
      apply N.eqb_eq in Hx; subst.
      destruct (IH _ Hs) as [t ->]; now exists t.
  - intros [t ->]; apply startsWith_app.
Qed.

Lemma startsWith_skipn (s p : jsstring) :
  startsWith s p = true -> s = p ++ skipn (List.length p) s.
Proof.
  intros H; apply startsWith_true in H as [t ->].
  now rewrite skipn_app, skipn_all, Nat.sub_diag.
Qed.

(** ** [split] *)

Lemma split_from_field (sep : N) (p cur s : jsstring) :
  forallb (fun c => negb (c =? sep)%N) p = true ->
  split_from sep cur (p ++ s) = split_from sep (rev p ++ cur) s.
Proof.
  revert cur; induction p as [|c p IH]; intros cur H; simpl in *.
  - reflexivity.
  - apply andb_true_iff in H as [Hc Hp].
    apply negb_true_iff in Hc; rewrite Hc, IH by assumption.
    now rewrite <- app_assoc.
Qed.

Lemma split_from_head (cur s : jsstring) :
  nth_error (split_from colon cur s) 0 = Some (rev cur ++ upToColon s).
Proof.
  unfold upToColon; revert cur; induction s as [|c s IH]; intros cur;
    cbn [split_from span].
  - now rewrite app_nil_r.
  - unfold notColon at 1.
    destruct (c =? colon)%N; cbn [negb].
    + now rewrite app_nil_r.
    + rewrite IH.
      destruct (span notColon s) as [a b]; cbn [fst rev].
      now rewrite <- app_assoc.
Qed.

(** The second field of a text whose first colon ends the prefix [p]. *)
Lemma second_field (p rest : jsstring) :
  forallb notColon p = true ->
  nth_error (split (p ++ colon :: rest) colon) 1 = Some (upToColon rest).
Proof.
  intros Hp; unfold split.
  rewrite split_from_field by exact Hp.
  change (split_from colon (rev p ++ []) (colon :: rest))
    with (rev (rev p ++ []) :: split_from colon [] rest).
  cbn [nth_error].
  apply (split_from_head [] rest).
Qed.


(** ** [span] *)

Lemma span_app (p : N -> bool) (a rest : jsstring) :
  forallb p a = true ->
  match rest with [] => true | c :: _ => negb (p c) end = true ->
  span p (a ++ rest) = (a, rest).
Proof.
  intros Ha Hr; induction a as [|c a IH]; simpl in *.
  - destruct rest as [|c rest]; [reflexivity|].
    simpl; apply negb_true_iff in Hr; now rewrite Hr.
  - apply andb_true_iff in Ha as [Hc Ha]; rewrite Hc, IH by assumption.
    reflexivity.
Qed.

Lemma span_spec (p : N -> bool) (s : jsstring) :
  s = fst (span p s) ++ snd (span p s)
  /\ forallb p (fst (span p s)) = true
  /\ match snd (span p s) with [] => true | c :: _ => negb (p c) end = true.
Proof.
  induction s as [|c s IH]; simpl; [auto|].
  destruct (p c) eqn:Hc.
  - destruct (span p s) as [a b]; simpl in *.
    destruct IH as (-> & Ha & Hb); rewrite Hc; auto.
  - simpl; rewrite Hc; auto.
Qed.

(** ** [parseFloat] on text that does not begin a number *)

Lemma parseFloat_not_numeral (c : N) (s : jsstring) :
  numeralStart c = false -> parseFloat (c :: s) = NaN.
Proof.
  unfold numeralStart; intros H.
  apply orb_false_elim in H as [H HI].
  apply orb_false_elim in H as [H Hdot].
  apply orb_false_elim in H as [H Hminus].
  apply orb_false_elim in H as [H Hplus].
  apply orb_false_elim in H as [Hws Hdigit].
  unfold parseFloat; cbn [dropWhile]; rewrite Hws.
  unfold readSign; rewrite Hplus, Hminus.
  unfold readUnsignedDecimal.
  change (startsWith (c :: s) (str "Infinity"))
    with ((c =? 73)%N && startsWith s (str "nfinity")).
  rewrite HI; cbn [andb span]; rewrite Hdigit.
  change (startsWith (c :: s) (str "."))
    with ((c =? 46)%N && startsWith s []).
  now rewrite Hdot.
Qed.

(** ** The classifier *)

Lemma checkForErrors_banned (response : jsstring) :
  startsWith response (str "BANNED:") = true ->
  checkForErrors response =
  Throw (new_BannedError response
           (or_else (nth_error (split response colon) 1) (str "unknown"))).
Proof. unfold checkForErrors; now intros ->. Qed.

Lemma checkForErrors_price (rest : jsstring) :
  let response := str "WRONG_MAX_PRICE:" ++ rest in
  checkForErrors response =
  Throw (new_WrongMaxPriceError response
           (parseFloat (or_else (nth_error (split response colon) 1)
                                (str "0")))).
Proof. reflexivity. Qed.

Lemma errorFor_rawResponse (code response : jsstring) :
  rawResponse (errorFor code response) = response.
Proof.
  unfold errorFor.
  repeat match goal with |- context [if ?b then _ else _] => destruct b end;
    reflexivity.
Qed.

Lemma forCodes_rawResponse (codes : list jsstring) (response : jsstring)
      (e : HeroSMSError) :
  forCodes codes response = Throw e -> rawResponse e = response.
Proof.
  induction codes as [|code codes IH]; simpl; [discriminate|].
  destruct (strict_eq response code || startsWith response code); [|exact IH].
  intros [= <-]; apply errorFor_rawResponse.
Qed.

Lemma checkForErrors_rawResponse (response : jsstring) (e : HeroSMSError) :
  checkForErrors response = Throw e -> rawResponse e = response.
Proof.
  unfold checkForErrors.
  destruct (startsWith response (str "BANNED:")); [now intros [= <-]|].
  destruct (startsWith response (str "WRONG_MAX_PRICE:"));
    [now intros [= <-]|].
  apply forCodes_rawResponse.
Qed.

Lemma checkForErrors_never_TypeError (response : jsstring) :
  checkForErrors response <> ThrowTypeError.
Proof.
  unfold checkForErrors.
  destruct (startsWith response (str "BANNED:")); [discriminate|].
  destruct (startsWith response (str "WRONG_MAX_PRICE:")); [discriminate|].
  induction errorCodes as [|code codes IH]; simpl; [discriminate|].
  now destruct (strict_eq response code || startsWith response code).
Qed.

(** The class of the error each plain code is mapped to by the [switch]. *)
Lemma errorFor_class (response : jsstring) :
  map (fun code => name (errorFor code response)) errorCodes =
  [ HeroSMSErrorClass; AuthenticationErrorClass; AuthenticationErrorClass;
    HeroSMSErrorClass; HeroSMSErrorClass; HeroSMSErrorClass;
    NoNumbersErrorClass; ActivationNotFoundErrorClass; HeroSMSErrorClass;
    EarlyCancelErrorClass; HeroSMSErrorClass; HeroSMSErrorClass;
    HeroSMSErrorClass; HeroSMSErrorClass ].
Proof. reflexivity. Qed.

Lemma errorFor_code (response : jsstring) :
  map (fun code => Errors.code (errorFor code response)) errorCodes =
  errorCodes.
Proof. reflexivity. Qed.

(** Every plain code but the last is classified as itself, alone or
    followed by any text. *)
Lemma plain_code_classified (code t : jsstring) :
  In code errorCodes -> code <> str "NO_ACTIVATIONS" ->
  checkForErrors (code ++ t) = Throw (errorFor code (code ++ t)).
Proof.
  intros Hin Hne.
  repeat (destruct Hin as [<- | Hin]; [try (destruct t; reflexivity)|]).
  - now elim Hne.
  - destruct Hin.
Qed.

(** The last code is shadowed by [NO_ACTIVATION], which is a prefix of it
    and comes first in [errorCodes]: with or without trailing text. *)
Lemma NO_ACTIVATIONS_shadowed (t : jsstring) :
  checkForErrors (str "NO_ACTIVATIONS" ++ t) =
  Throw (new_ActivationNotFoundError (str "NO_ACTIVATIONS" ++ t)).
Proof. reflexivity. Qed.

(** ** The regular expressions *)

(** A capturing group [(C+)] that ends the pattern takes the longest run. *)
Lemma greedy_last (cls : N -> bool) (cur s : jsstring) :
  greedy cls (matchAt []) cur s =
  match fst (span cls s) with
  | [] => None
  | run => Some [rev cur ++ run]
  end.
Proof.
  revert cur; induction s as [|c s IH]; intros cur; cbn [greedy span].
  - reflexivity.
  - destruct (cls c); [|reflexivity].
    rewrite IH; destruct (span cls s) as [a b]; cbn [fst matchAt rev].
    destruct a; [reflexivity|].
    now rewrite <- app_assoc.
Qed.

(** A capturing group [(C+)] takes the longest run too when what follows
    cannot start with a character of [C]: giving characters back never
    helps. *)
Lemma greedy_then (cls : N -> bool) (k : jsstring -> option (list jsstring))
      (cur s : jsstring) :
  (forall c t, cls c = true -> k (c :: t) = None) ->
  greedy cls k cur s =
  match span cls s with
  | ([], _) => None
  | (run, rest) => option_map (cons (rev cur ++ run)) (k rest)
  end.
Proof.
  intros Hk; revert cur; induction s as [|c s IH]; intros cur;
    cbn [greedy span].
  - reflexivity.
  - destruct (cls c) eqn:Hc; [|reflexivity].
    rewrite IH.
    destruct s as [|x s]; [cbn; now destruct (k [])|].
    cbn [span]; destruct (cls x) eqn:Hx.
    + destruct (span cls s) as [a b]; cbn [rev].
      rewrite <- app_assoc; cbn [app].
      destruct (k b); [reflexivity|].
      cbn [option_map]; now rewrite (Hk x s Hx).
    + cbn [rev option_map app]. now destruct (k (x :: s)).
Qed.

Lemma matchAt_literal (p : jsstring) (r : RegExp) (s : jsstring) :
  matchAt (map Char p ++ r) s =
  if startsWith s p then matchAt r (skipn (List.length p) s) else None.
Proof.
  revert s; induction p as [|c p IH]; intros s; [reflexivity|].
  destruct s as [|x s]; [reflexivity|].
  cbn [map app matchAt startsWith List.length skipn].
  destruct (x =? c)%N; [apply IH|reflexivity].
Qed.


Lemma String_match_position (r : RegExp) (s : jsstring)
      (caps : list jsstring) :
  String_match s r = Some caps ->
  exists pre post, s = pre ++ post /\ matchAt r post = Some caps.
Proof.
  induction s as [|c s IH]; cbn [String_match].
  - destruct (matchAt r []) eqn:E; [|discriminate].
    intros [= <-]; now exists [], [].
  - destruct (matchAt r (c :: s)) eqn:E.
    + intros [= <-]; now exists [], (c :: s).
    + intros H; destruct (IH H) as (pre & post & -> & Hm).
      now exists (c :: pre), post.
Qed.

Lemma String_match_here (r : RegExp) (s : jsstring) (caps : list jsstring) :
  matchAt r s = Some caps -> String_match s r = Some caps.
Proof. intros H; destruct s; cbn [String_match]; now rewrite H. Qed.

(** [/ACCESS_BALANCE:(.+)/] at the head of a text. *)
Lemma matchAt_balance (s : jsstring) :
  matchAt balancePattern s =
  if startsWith s (str "ACCESS_BALANCE:") then
    match fst (span dot (skipn 15 s)) with
    | [] => None
    | run => Some [run]
    end
  else None.
Proof.
  unfold balancePattern, literal; rewrite matchAt_literal.
  destruct (startsWith s (str "ACCESS_BALANCE:")); [|reflexivity].
  cbn [matchAt]; apply greedy_last.
Qed.

Lemma digit_not_colon (c : N) (t : jsstring) :
  isDigit c = true -> matchAt [Char colon; PlusGroup dot] (c :: t) = None.
Proof.
  intros H; cbn [matchAt].
  destruct (c =? colon)%N eqn:E; [|reflexivity].
  apply N.eqb_eq in E; subst; discriminate.
Qed.

(** [/ACCESS_NUMBER:(\d+):(.+)/] at the head of a text. *)
Lemma matchAt_number (s : jsstring) :
  matchAt numberPattern s =
  if startsWith s (str "ACCESS_NUMBER:") then
    match span isDigit (skipn 14 s) with
    | ([], _) => None
    | (_, []) => None
    | (ds, c :: r) =>
        if (c =? colon)%N then
          match fst (span dot r) with
          | [] => None
          | run => Some [ds; run]
          end
        else None
    end
  else None.
Proof.
  unfold numberPattern, literal; rewrite matchAt_literal.
  destruct (startsWith s (str "ACCESS_NUMBER:")); [|reflexivity].
  change (matchAt [PlusGroup isDigit; Char colon; PlusGroup dot])
    with (greedy isDigit (matchAt [Char colon; PlusGroup dot]) []).
  rewrite greedy_then by apply digit_not_colon.
  change (List.length (str "ACCESS_NUMBER:")) with 14%nat.
  destruct (span isDigit (skipn 14 s)) as [[|d ds] r]; [reflexivity|].
  destruct r as [|c r]; [reflexivity|].
  cbn [matchAt rev app]; destruct (c =? colon)%N; [|reflexivity].
  rewrite greedy_last.
  now destruct (fst (span dot r)).
Qed.

(** ** What the two patterns find *)

Lemma lineEnd_span (s : jsstring) : lineEnd (snd (span dot s)) = true.
Proof.
  destruct (span_spec dot s) as (_ & _ & H).
  destruct (snd (span dot s)); [reflexivity|].
  unfold lineEnd; unfold dot in H; now rewrite negb_involutive in H.
Qed.

Lemma span_line (text rest : jsstring) :
  forallb dot text = true -> lineEnd rest = true ->
  span dot (text ++ rest) = (text, rest).
Proof.
  intros Ht Hr; apply span_app; [exact Ht|].
  destruct rest; [reflexivity|].
  unfold dot; now rewrite negb_involutive.
Qed.

Lemma String_match_leftmost (r : RegExp) (s : jsstring)
      (caps : list jsstring) :
  String_match s r = Some caps ->
  exists pre post,
    s = pre ++ post /\ matchAt r post = Some caps
    /\ (forall pre1 pre2, pre = pre1 ++ pre2 -> pre2 <> [] ->
          matchAt r (pre2 ++ post) = None).
Proof.
  induction s as [|c s IH]; cbn [String_match].
  - destruct (matchAt r []) eqn:E; [|discriminate].
    intros [= <-]; exists [], []; split; [reflexivity|]; split; [exact E|].
    intros [|? ?] [|? ?]; easy.
  - destruct (matchAt r (c :: s)) eqn:E.
    + intros [= <-]; exists [], (c :: s).
      split; [reflexivity|]; split; [exact E|].
      intros [|? ?] [|? ?]; easy.
    + intros H; destruct (IH H) as (pre & post & -> & Hm & Hfirst).
      exists (c :: pre), post.
      split; [reflexivity|]; split; [exact Hm|].
      intros [|x pre1] pre2 Hp Hne; cbn [app] in Hp.
      * now subst pre2.
      * injection Hp as -> ->; now apply (Hfirst pre1).
Qed.

Lemma String_match_at (r : RegExp) (pre post : jsstring)
      (caps : list jsstring) :
  matchAt r post = Some caps ->
  (forall pre1 pre2, pre = pre1 ++ pre2 -> pre2 <> [] ->
     matchAt r (pre2 ++ post) = None) ->
  String_match (pre ++ post) r = Some caps.
Proof.
  intros Hm; induction pre as [|c pre IH]; intros Hfirst.
  - now apply String_match_here.
  - assert (H0 : matchAt r ((c :: pre) ++ post) = None)
      by now apply (Hfirst [] (c :: pre)).
    cbn [app String_match] in *; rewrite H0.
    apply IH; intros pre1 pre2 -> Hne.
    now apply (Hfirst (c :: pre1)).
Qed.

(** A match of the balance pattern at the head of [s], as a shape. *)
Lemma balance_matchAt (text rest : jsstring) :
  text <> [] -> forallb dot text = true -> lineEnd rest = true ->
  matchAt balancePattern (str "ACCESS_BALANCE:" ++ text ++ rest)
  = Some [text].
Proof.
  intros Hne Hd Hl; rewrite matchAt_balance, startsWith_app.
  change (skipn 15 (str "ACCESS_BALANCE:" ++ text ++ rest))
    with (text ++ rest).
  rewrite span_line by assumption.
  destruct text; [now elim Hne | reflexivity].
Qed.

Lemma balance_matchAt_inv (s : jsstring) (caps : list jsstring) :
  matchAt balancePattern s = Some caps ->
  exists text rest,
    s = str "ACCESS_BALANCE:" ++ text ++ rest
    /\ caps = [text] /\ text <> []
    /\ forallb dot text = true /\ lineEnd rest = true.
Proof.
  intros H; rewrite matchAt_balance in H.
  destruct (startsWith s (str "ACCESS_BALANCE:")) eqn:E; [|discriminate].
  apply startsWith_skipn in E.
  change (List.length (str "ACCESS_BALANCE:")) with 15%nat in E.
  set (t := skipn 15 s) in *.
  destruct (span_spec dot t) as (Ht & Hd & _).
  pose proof (lineEnd_span t) as Hl.
  destruct (span dot t) as [text rest]; cbn [fst snd] in *.
  destruct text as [|c text]; [discriminate|].
  injection H as <-.
  exists (c :: text), rest; repeat split; try assumption.
  - now rewrite E, Ht.
  - discriminate.
Qed.

Lemma balanceAt_matchAt (s : jsstring) :
  balanceAt s <-> exists text, matchAt balancePattern s = Some [text].
Proof.
  split.
  - intros (c & post & -> & Hc).
    destruct (span_spec dot post) as (Hp & Hd & _).
    exists (c :: fst (span dot post)).
    rewrite Hp at 1.
    change (c :: fst (span dot post) ++ snd (span dot post))
      with ((c :: fst (span dot post)) ++ snd (span dot post)).
    apply balance_matchAt; [discriminate| |apply lineEnd_span].
    cbn [forallb]; unfold dot at 1; now rewrite Hc, Hd.
  - intros (text & H).
    destruct (balance_matchAt_inv _ _ H) as (t & rest & -> & _ & Hne & Hd & _).
    destruct t as [|c t]; [now elim Hne|].
    exists c, (t ++ rest); split; [reflexivity|].
    cbn [forallb] in Hd; apply andb_true_iff in Hd as [Hc _].
    unfold dot in Hc; now apply negb_true_iff in Hc.
Qed.

Lemma not_balanceAt (s : jsstring) :
  ~ balanceAt s -> matchAt balancePattern s = None.
Proof.
  intros Hn; destruct (matchAt balancePattern s) as [caps|] eqn:E;
    [|reflexivity].
  destruct (balance_matchAt_inv _ _ E) as (text & _ & _ & -> & _).
  elim Hn; apply balanceAt_matchAt; now exists text.
Qed.


(** A match of the number pattern at the head of [s], as a shape. *)
Lemma number_matchAt (ds text rest : jsstring) :
  ds <> [] -> forallb isDigit ds = true ->
  text <> [] -> forallb dot text = true -> lineEnd rest = true ->
  matchAt numberPattern
          (str "ACCESS_NUMBER:" ++ ds ++ colon :: text ++ rest)
  = Some [ds; text].
Proof.
  intros Hne Hds Htne Hd Hl; rewrite matchAt_number, startsWith_app.
  change (skipn 14 (str "ACCESS_NUMBER:" ++ ds ++ colon :: text ++ rest))
    with (ds ++ colon :: text ++ rest).
  rewrite span_app by (assumption || reflexivity).
  destruct ds; [now elim Hne|].
  rewrite N.eqb_refl, span_line by assumption.
  destruct text; [now elim Htne | reflexivity].
Qed.

Lemma number_matchAt_inv (s : jsstring) (caps : list jsstring) :
  matchAt numberPattern s = Some caps ->
  exists ds text rest,
    s = str "ACCESS_NUMBER:" ++ ds ++ colon :: text ++ rest
    /\ caps = [ds; text]
    /\ ds <> [] /\ forallb isDigit ds = true
    /\ text <> [] /\ forallb dot text = true /\ lineEnd rest = true.
Proof.
  intros H; rewrite matchAt_number in H.
  destruct (startsWith s (str "ACCESS_NUMBER:")) eqn:E; [|discriminate].
  apply startsWith_skipn in E.
  change (List.length (str "ACCESS_NUMBER:")) with 14%nat in E.
  set (t := skipn 14 s) in *.
  destruct (span_spec isDigit t) as (Ht & Hds & _).
  destruct (span isDigit t) as [ds r]; cbn [fst snd] in *.
  destruct ds as [|d ds]; [discriminate|].
  destruct r as [|c r]; [discriminate|].
  destruct (c =? colon)%N eqn:Ec; [|discriminate].
  apply N.eqb_eq in Ec; subst c.
  destruct (span_spec dot r) as (Hr & Hd & _).
  pose proof (lineEnd_span r) as Hl.
  destruct (span dot r) as [text rest]; cbn [fst snd] in *.
  destruct text as [|c text]; [discriminate|].
  injection H as <-.
  exists (d :: ds), (c :: text), rest; repeat split;
    try assumption; try discriminate.
  now rewrite E, Ht, Hr.
Qed.

Lemma numberAt_matchAt (s : jsstring) :
  numberAt s <-> exists ds text, matchAt numberPattern s = Some [ds; text].
Proof.
  split.
  - intros (ds & c & post & -> & Hne & Hds & Hc).
    destruct (span_spec dot post) as (Hp & Hd & _).
    exists ds, (c :: fst (span dot post)).
    rewrite Hp at 1.
    change (c :: fst (span dot post) ++ snd (span dot post))
      with ((c :: fst (span dot post)) ++ snd (span dot post)).
    apply number_matchAt; try assumption;
      [discriminate| |apply lineEnd_span].
    cbn [forallb]; unfold dot at 1; now rewrite Hc, Hd.
  - intros (ds & text & H).
    destruct (number_matchAt_inv _ _ H)
      as (ds' & t & rest & -> & _ & Hne & Hds & Htne & Hd & _).
    destruct t as [|c t]; [now elim Htne|].
    exists ds', c, (t ++ rest); repeat split; try assumption.
    cbn [forallb] in Hd; apply andb_true_iff in Hd as [Hc _].
    unfold dot in Hc; now apply negb_true_iff in Hc.
Qed.

Lemma not_numberAt (s : jsstring) :
  ~ numberAt s -> matchAt numberPattern s = None.
Proof.
  intros Hn; destruct (matchAt numberPattern s) as [caps|] eqn:E;
    [|reflexivity].
  destruct (number_matchAt_inv _ _ E) as (ds & text & _ & _ & -> & _).
  elim Hn; apply numberAt_matchAt; now exists ds, text.
Qed.


(** [parseInt] of a run of digits is the Number of its decimal value. *)
Lemma parseInt10_digits (ds : jsstring) :
  ds <> [] -> forallb isDigit ds = true ->
  parseInt10 ds = ofInteger false (digitsValue ds).
Proof.
  intros Hne Hds; destruct ds as [|d ds]; [now elim Hne|].
  pose proof Hds as Hall.
  cbn [forallb] in Hds; apply andb_true_iff in Hds as [Hd _].
  assert (Hr : (48 <= d <= 57)%N).
  { unfold isDigit in Hd; apply andb_true_iff in Hd as [H1 H2].
    apply N.leb_le in H1, H2; lia. }
  assert (Hws : isStrWhiteSpaceChar d = false).
  { unfold isStrWhiteSpaceChar, isLineTerminator.
    repeat match goal with
           | |- context [(d =? ?k)%N] => destruct (N.eqb_spec d k); [lia|]
           end.
    destruct (N.leb_spec 8192 d); [lia | reflexivity]. }
  unfold parseInt10; cbn [dropWhile]; rewrite Hws.
  unfold readSign.
  destruct (N.eqb_spec d 43); [lia|]; destruct (N.eqb_spec d 45); [lia|].
  rewrite <- (app_nil_r (d :: ds)) at 1.
  rewrite span_app by (assumption || reflexivity).
  reflexivity.
Qed.

(** The cases of test/client.test.ts that concern the response. *)
Lemma client_tests :
  getBalance (VString (str "ACCESS_BALANCE:150.50"))
  = Return (roundDecimal false 1505 (-1))
  /\ (exists e, getBalance (VString (str "BAD_KEY")) = Throw e
                 /\ name e = AuthenticationErrorClass)
  /\ getNumber (VString (str "ACCESS_NUMBER:123456:79001234567"))
     = Return {| activationId := ofInteger false 123456;
                 phoneNumber := str "79001234567" |}
  /\ (exists e, getNumber (VString (str "NO_NUMBERS")) = Throw e
                 /\ name e = NoNumbersErrorClass)
  /\ getStatus (VString (str "STATUS_OK:123456"))
     = Return {| status := STATUS_OK; code := Some (str "123456") |}
  /\ getStatus (VString (str "STATUS_WAIT_CODE"))
     = Return {| status := STATUS_WAIT_CODE; code := None |}
  /\ setStatus (VString (str "ACCESS_READY"))
     = Return (VString (str "ACCESS_READY")).
Proof. repeat split; eexists; split; reflexivity. Qed.

(** ** The decoders after classification *)

Lemma parseError_fields (what : string) (response : jsstring) :
  Errors.code (parseError what response) = str "PARSE_ERROR"
  /\ rawResponse (parseError what response) = response
  /\ name (parseError what response) = HeroSMSErrorClass.
Proof. now repeat split. Qed.

Lemma request_string (body : jsstring) :
  request (VString body) =
  (_ <- checkForErrors body ;; Return (VString body)).
Proof. reflexivity. Qed.

Lemma getBalance_classified (body : jsstring) :
  checkForErrors body = Return tt ->
  getBalance (VString body) =
  match String_match body balancePattern with
  | Some (m1 :: _) => Return (parseFloat m1)
  | _ => Throw (parseError "Unexpected balance response: " body)
  end.
Proof. intros H; unfold getBalance; now rewrite request_string, H. Qed.

Lemma getNumber_classified (body : jsstring) :
  checkForErrors body = Return tt ->
  getNumber (VString body) =
  match String_match body numberPattern with
  | Some (m1 :: m2 :: _) =>
      Return {| activationId := parseInt10 m1; phoneNumber := m2 |}
  | _ => Throw (parseError "Unexpected number response: " body)
  end.
Proof. intros H; unfold getNumber; now rewrite request_string, H. Qed.

Lemma balance_prefix_classified (t : jsstring) :
  checkForErrors (str "ACCESS_BALANCE:" ++ t) = Return tt.
Proof. reflexivity. Qed.

Lemma number_prefix_classified (t : jsstring) :
  checkForErrors (str "ACCESS_NUMBER:" ++ t) = Return tt.
Proof. reflexivity. Qed.



(** The value comes from the leftmost occurrence. *)
Lemma getBalance_value (pre text rest : jsstring) :
  let post := str "ACCESS_BALANCE:" ++ text ++ rest in
  checkForErrors (pre ++ post) = Return tt ->
  firstAt balanceAt pre post ->
  text <> [] -> forallb dot text = true -> lineEnd rest = true ->
  getBalance (VString (pre ++ post)) = Return (parseFloat text).
Proof.
  intros post Hc Hfirst Hne Hd Hl.
  rewrite getBalance_classified by assumption.
  rewrite (String_match_at balancePattern pre post [text]).
  - reflexivity.
  - now apply balance_matchAt.
  - intros pre1 pre2 Hp Hn; apply not_balanceAt; now apply (Hfirst pre1).
Qed.

Lemma getBalance_value_head (text rest : jsstring) :
  text <> [] -> forallb dot text = true -> lineEnd rest = true ->
  getBalance (VString (str "ACCESS_BALANCE:" ++ text ++ rest))
  = Return (parseFloat text).
Proof.
  intros Hne Hd Hl.
  apply (getBalance_value [] text rest); try assumption.
  - apply balance_prefix_classified.
  - intros [|? ?] [|? ?]; easy.
Qed.



(** The result comes from the leftmost occurrence. *)
Lemma getNumber_value (pre ds text rest : jsstring) :
  let post := str "ACCESS_NUMBER:" ++ ds ++ colon :: text ++ rest in
  checkForErrors (pre ++ post) = Return tt ->
  firstAt numberAt pre post ->
  ds <> [] -> forallb isDigit ds = true ->
  text <> [] -> forallb dot text = true -> lineEnd rest = true ->
  getNumber (VString (pre ++ post))
  = Return {| activationId := ofInteger false (digitsValue ds);
              phoneNumber := text |}.
Proof.
  intros post Hc Hfirst Hne Hds Htne Hd Hl.
  rewrite getNumber_classified by assumption.
  rewrite (String_match_at numberPattern pre post [ds; text]).
  - now rewrite parseInt10_digits.
  - now apply number_matchAt.
  - intros pre1 pre2 Hp Hn; apply not_numberAt; now apply (Hfirst pre1).
Qed.

Lemma getNumber_value_head (ds text rest : jsstring) :
  ds <> [] -> forallb isDigit ds = true ->
  text <> [] -> forallb dot text = true -> lineEnd rest = true ->
  getNumber
    (VString (str "ACCESS_NUMBER:" ++ ds ++ colon :: text ++ rest))
  = Return {| activationId := ofInteger false (digitsValue ds);
              phoneNumber := text |}.
Proof.
  intros Hne Hds Htne Hd Hl.
  apply (getNumber_value [] ds text rest); try assumption.
  - apply number_prefix_classified.
  - intros [|? ?] [|? ?]; easy.
Qed.




(* ------------------------------------------------------------------------ *)
(** * The claims *)

(** C1 (evaluation at the body the claim singles out).  The body
    [NO_ACTIVATIONS] is classified by the earlier list entry
    [NO_ACTIVATION], of which it is an extension: the error thrown is the
    not-found error with code [NO_ACTIVATION], not the generic error with
    code [NO_ACTIVATIONS] and message "No activations found" that the
    [switch] holds for the list's last entry.  The other thirteen codes are
    classified as themselves ([plain_code_classified]). *)
Theorem NO_ACTIVATIONS_classified_as_NO_ACTIVATION :
  let body := str "NO_ACTIVATIONS" in
  In body errorCodes
  /\ errorFor body body =
     new_HeroSMSError body (str "No activations found") body
  /\ checkForErrors body = Throw (new_ActivationNotFoundError body)
  /\ name (new_ActivationNotFoundError body) = ActivationNotFoundErrorClass
  /\ Errors.code (new_ActivationNotFoundError body) = str "NO_ACTIVATION"
  /\ checkForErrors body <> Throw (errorFor body body).
Proof.
  cbv zeta; repeat split.
  - unfold errorCodes; cbn [map In]; tauto.
  - discriminate.
Qed.

(** C2, as stated, fails: for the body [WRONG_MAX_PRICE:abc] the minimum
    price of the error is NaN, not 0. *)
Lemma WRONG_MAX_PRICE_abc_is_NaN :
  checkForErrors (str "WRONG_MAX_PRICE:abc") =
  Throw (new_WrongMaxPriceError (str "WRONG_MAX_PRICE:abc") NaN)
  /\ ~ (exists e, checkForErrors (str "WRONG_MAX_PRICE:abc") = Throw e
                  /\ minimumPrice e = Some (S754_zero false)).
Proof.
  split; [reflexivity|].
  intros (e & H & Hp).
  change (checkForErrors (str "WRONG_MAX_PRICE:abc"))
    with (@Throw unit (new_WrongMaxPriceError (str "WRONG_MAX_PRICE:abc") NaN))
    in H.
  injection H as <-; discriminate.
Qed.

(** C2, amended.  Every body [WRONG_MAX_PRICE:rest] is classified as a
    WrongMaxPrice error that keeps the body and whose minimum price comes
    from the second colon-delimited field: 0 when the field is empty, NaN
    when the field begins with a character that cannot start a number, and
    otherwise what [parseFloat] reads from the field.  [WRONG_MAX_PRICE:1.5]
    gives 1.5 and [WRONG_MAX_PRICE:abc] gives NaN. *)
Theorem WRONG_MAX_PRICE_classification :
  (forall rest : jsstring,
     let body := str "WRONG_MAX_PRICE:" ++ rest in
     checkForErrors body =
     Throw (new_WrongMaxPriceError body
              match upToColon rest with
              | [] => S754_zero false
              | c :: field =>
                  if numeralStart c then parseFloat (c :: field) else NaN
              end))
  /\ checkForErrors (str "WRONG_MAX_PRICE:1.5") =
     Throw (new_WrongMaxPriceError (str "WRONG_MAX_PRICE:1.5")
                                   (roundDecimal false 15 (-1)))
  /\ roundDecimal false 15 (-1) = S754_finite false (3 * 2 ^ 51) (-52)
  /\ checkForErrors (str "WRONG_MAX_PRICE:abc") =
     Throw (new_WrongMaxPriceError (str "WRONG_MAX_PRICE:abc") NaN).
Proof.
  split; [|now repeat split].
  intros rest body; unfold body; rewrite checkForErrors_price.
  change (str "WRONG_MAX_PRICE:" ++ rest)
    with (str "WRONG_MAX_PRICE" ++ colon :: rest) at 2.
  rewrite second_field by reflexivity.
  destruct (upToColon rest) as [|c field]; [reflexivity|].
  cbn [or_else].
  destruct (numeralStart c) eqn:E; [reflexivity|].
  now rewrite parseFloat_not_numeral.
Qed.










(** C6.  Every body [BANNED:rest] is classified as a Banned error that
    keeps the body and whose payload is the second colon-delimited field,
    or "unknown" when that field is empty.  [BANNED:2024-01-01] gives
    "2024-01-01" and [BANNED:] gives "unknown". *)
Theorem BANNED_classification :
  (forall rest : jsstring,
     let body := str "BANNED:" ++ rest in
     checkForErrors body =
     Throw (new_BannedError body
              match upToColon rest with
              | [] => str "unknown"
              | field => field
              end))
  /\ checkForErrors (str "BANNED:2024-01-01") =
     Throw (new_BannedError (str "BANNED:2024-01-01") (str "2024-01-01"))
  /\ checkForErrors (str "BANNED:") =
     Throw (new_BannedError (str "BANNED:") (str "unknown"))
  /\ (forall body payload,
        rawResponse (new_BannedError body payload) = body
        /\ bannedUntil (new_BannedError body payload) = Some payload
        /\ name (new_BannedError body payload) = BannedErrorClass).
Proof.
  split; [|now repeat split].
  intros rest body; unfold body.
  rewrite checkForErrors_banned by reflexivity.
  change (str "BANNED:" ++ rest) with (str "BANNED" ++ colon :: rest) at 2.
  rewrite second_field by reflexivity.
  now destruct (upToColon rest).
Qed.

(** C7.  Every error thrown by the classifier or by a decoder keeps the
    body it was raised for as its [rawResponse]; a Banned error also holds
    its ban text and a WrongMaxPrice error its minimum price. *)
Theorem errors_keep_rawResponse (body : jsstring) (e : HeroSMSError) :
  (checkForErrors body = Throw e ->
     rawResponse e = body
     /\ (startsWith body (str "BANNED:") = true ->
           name e = BannedErrorClass
           /\ bannedUntil e =
              Some (or_else (nth_error (split body colon) 1)
                            (str "unknown")))
     /\ (startsWith body (str "WRONG_MAX_PRICE:") = true ->
           name e = WrongMaxPriceErrorClass
           /\ minimumPrice e =
              Some (parseFloat (or_else (nth_error (split body colon) 1)
                                        (str "0")))))
  /\ (request (VString body) = Throw e -> rawResponse e = body)
  /\ (getBalance (VString body) = Throw e -> rawResponse e = body)
  /\ (getNumber (VString body) = Throw e -> rawResponse e = body)
  /\ (getStatus (VString body) = Throw e -> rawResponse e = body).
Proof.
  split; [|split; [|split; [|split]]].
  - intros H; split; [exact (checkForErrors_rawResponse _ _ H)|]; split.
    + intros Hb; rewrite checkForErrors_banned in H by exact Hb.
      now injection H as <-.
    + intros Hp; apply startsWith_true in Hp as [rest ->].
      rewrite (checkForErrors_price rest) in H.
      now injection H as <-.
  - rewrite request_string.
    destruct (checkForErrors body) eqn:E; cbn [bind]; try discriminate.
    intros [= <-]; exact (checkForErrors_rawResponse _ _ E).
  - unfold getBalance; rewrite request_string.
    destruct (checkForErrors body) eqn:E; cbn [bind asString];
      try discriminate.
    + destruct (String_match body balancePattern) as [[|m1 caps]|];
        try discriminate; now intros [= <-].
    + intros [= <-]; exact (checkForErrors_rawResponse _ _ E).
  - unfold getNumber; rewrite request_string.
    destruct (checkForErrors body) eqn:E; cbn [bind asString];
      try discriminate.
    + destruct (String_match body numberPattern) as [[|m1 [|m2 caps]]|];
        try discriminate; now intros [= <-].
    + intros [= <-]; exact (checkForErrors_rawResponse _ _ E).
  - unfold getStatus; rewrite request_string.
    destruct (checkForErrors body) eqn:E; cbn [bind asString];
      try discriminate.
    + repeat match goal with
             | |- context [if ?b then _ else _] => destruct b
             end; try discriminate; now intros [= <-].
    + intros [= <-]; exact (checkForErrors_rawResponse _ _ E).
Qed.

Lemma errors_keep_rawResponse_witness :
  rawResponse (new_AuthenticationError (str "BAD_KEY") (str "BAD_KEY: no"))
  = str "BAD_KEY: no"
  /\ bannedUntil (new_BannedError (str "BANNED:soon") (str "soon"))
     = Some (str "soon")
  /\ rawResponse (parseError "Unexpected status response: " (str "??"))
     = str "??".
Proof.
  split; [|split].
  - apply (errors_keep_rawResponse (str "BAD_KEY: no")
             (new_AuthenticationError (str "BAD_KEY") (str "BAD_KEY: no")));
      reflexivity.
  - apply (errors_keep_rawResponse (str "BANNED:soon")
             (new_BannedError (str "BANNED:soon") (str "soon")));
      reflexivity.
  - apply (errors_keep_rawResponse (str "??")
             (parseError "Unexpected status response: " (str "??")));
      reflexivity.
Defined.

(** C8.  A body that is not a string passes through [request] unchecked
    and unchanged, and so through every endpoint that returns the result of
    [request]. *)
Theorem structured_body_passes_through (data : JSValue) :
  typeof_string data = false ->
  request data = Return data
  /\ getNumberV2 data = Return data
  /\ getStatusV2 data = Return data
  /\ getActiveActivations data = Return data
  /\ getHistory data = Return data
  /\ getCountries data = Return data
  /\ getServicesList data = Return data
  /\ getOperators data = Return data
  /\ getPrices data = Return data
  /\ getTopCountriesByService data = Return data
  /\ getTopCountriesByServiceRank data = Return data.
Proof.
  intros H; destruct data; try discriminate H; now repeat split.
Qed.

Lemma structured_body_passes_through_witness :
  getNumberV2
    (VObject [(str "activationId", VNumber (ofInteger false 7));
              (str "phoneNumber", VString (str "BAD_KEY"))])
  = Return
      (VObject [(str "activationId", VNumber (ofInteger false 7));
                (str "phoneNumber", VString (str "BAD_KEY"))]).
Proof.
  apply (structured_body_passes_through
           (VObject [(str "activationId", VNumber (ofInteger false 7));
                     (str "phoneNumber", VString (str "BAD_KEY"))])).
  reflexivity.
Defined.

(** C9.  When classification of a string body throws nothing, [request]
    returns that very string, and the decoders match on it: whatever
    [request] returns is the value the transport gave. *)
Theorem classification_keeps_body (body : jsstring) :
  checkForErrors body = Return tt ->
  request (VString body) = Return (VString body)
  /\ setStatus (VString body) = Return (VString body)
  /\ getBalance (VString body) =
     match String_match body balancePattern with
     | Some (m1 :: _) => Return (parseFloat m1)
     | _ => Throw (parseError "Unexpected balance response: " body)
     end
  /\ getNumber (VString body) =
     match String_match body numberPattern with
     | Some (m1 :: m2 :: _) =>
         Return {| activationId := parseInt10 m1; phoneNumber := m2 |}
     | _ => Throw (parseError "Unexpected number response: " body)
     end
  /\ (forall data r, request data = Return r -> r = data).
Proof.
  intros H; repeat split.
  - now rewrite request_string, H.
  - unfold setStatus; now rewrite request_string, H.
  - now apply getBalance_classified.
  - now apply getNumber_classified.
  - intros data r; unfold request.
    destruct (match data with VString s => checkForErrors s | _ => Return tt
              end); cbn [bind]; congruence.
Qed.

Lemma classification_keeps_body_witness :
  setStatus (VString (str "ACCESS_READY")) =
  Return (VString (str "ACCESS_READY")).
Proof.
  apply (classification_keeps_body (str "ACCESS_READY")).
  reflexivity.
Defined.

(** C10.  The bare bodies [WRONG_MAX_PRICE] and [BANNED] are not errors
    for the classifier: [WRONG_MAX_PRICE] is not among the fourteen plain
    codes and both sentinel prefixes end with a colon.  [request] returns
    them, and a decoder then sees them as any other text. *)
Theorem bare_sentinels_pass_classification :
  checkForErrors (str "WRONG_MAX_PRICE") = Return tt
  /\ checkForErrors (str "BANNED") = Return tt
  /\ ~ In (str "WRONG_MAX_PRICE") errorCodes
  /\ ~ In (str "BANNED") errorCodes
  /\ List.length errorCodes = 14%nat
  /\ startsWith (str "WRONG_MAX_PRICE") (str "WRONG_MAX_PRICE:") = false
  /\ startsWith (str "BANNED") (str "BANNED:") = false
  /\ request (VString (str "WRONG_MAX_PRICE"))
     = Return (VString (str "WRONG_MAX_PRICE"))
  /\ request (VString (str "BANNED")) = Return (VString (str "BANNED"))
  /\ getBalance (VString (str "WRONG_MAX_PRICE")) =
     Throw (parseError "Unexpected balance response: "
                       (str "WRONG_MAX_PRICE"))
  /\ getStatus (VString (str "BANNED")) =
     Throw (parseError "Unexpected status response: " (str "BANNED")).
Proof.
  repeat split;
    intros H; unfold errorCodes in H; cbn [map In] in H;
    repeat (destruct H as [H | H]; [discriminate H|]); exact H.
Qed.

(* ------------------------------------------------------------------------ *)
(** * Further properties *)

(** ** The classifier, case by case *)

Lemma startsWith_app_l (s p t : jsstring) :
  startsWith s p = true -> startsWith (s ++ t) p = true.
Proof.
  intros H; apply startsWith_true in H as [u ->].
  rewrite <- app_assoc; apply startsWith_app.
Qed.

(** The test [response === code || response.startsWith(code)] is the
    prefix test: equal strings are prefixes of each other. *)
Lemma code_test (response code : jsstring) :
  strict_eq response code || startsWith response code
  = startsWith response code.
Proof.
  destruct (strict_eq response code) eqn:E; [|reflexivity].
  apply strict_eq_true in E; subst.
  rewrite <- (app_nil_r code) at 3; now rewrite startsWith_app.
Qed.

Lemma removelast_errorCodes (code : jsstring) :
  In code (removelast errorCodes) <->
  In code errorCodes /\ code <> str "NO_ACTIVATIONS".
Proof.
  unfold errorCodes; cbn [map removelast In]; split.
  - intros H.
    repeat (destruct H as [<- | H];
            [split; [tauto | discriminate]|]).
    destruct H.
  - intros [H Hne].
    repeat (destruct H as [<- | H]; [try tauto|]).
    destruct H.
Qed.

(** What an error of the classifier is, by the prefix that caused it. *)
Lemma checkForErrors_cases (body : jsstring) (e : HeroSMSError) :
  checkForErrors body = Throw e ->
  (exists t, body = str "BANNED:" ++ t
             /\ e = new_BannedError body
                      match upToColon t with
                      | [] => str "unknown"
                      | field => field
                      end)
  \/ (exists t, body = str "WRONG_MAX_PRICE:" ++ t
                /\ e = new_WrongMaxPriceError body
                         (parseFloat (or_else (Some (upToColon t))
                                              (str "0"))))
  \/ (exists code t, In code (removelast errorCodes)
                     /\ body = code ++ t /\ e = errorFor code body).
Proof.
  unfold checkForErrors.
  destruct (startsWith body (str "BANNED:")) eqn:Eb.
  { intros H; left.
    apply startsWith_true in Eb as [t ->]; exists t; split; [reflexivity|].
    pose proof (second_field (str "BANNED") t eq_refl) as Hs.
    change (str "BANNED" ++ colon :: t) with (str "BANNED:" ++ t) in Hs.
    rewrite Hs in H; injection H as <-.
    now destruct (upToColon t). }
  destruct (startsWith body (str "WRONG_MAX_PRICE:")) eqn:Ep.
  { intros H; right; left.
    apply startsWith_true in Ep as [t ->]; exists t; split; [reflexivity|].
    pose proof (second_field (str "WRONG_MAX_PRICE") t eq_refl) as Hs.
    change (str "WRONG_MAX_PRICE" ++ colon :: t)
      with (str "WRONG_MAX_PRICE:" ++ t) in Hs.
    rewrite Hs in H; now injection H as <-. }
  intros H; right; right.
  unfold errorCodes in H; cbn [map forCodes] in H.
  rewrite !code_test in H.
  repeat match type of H with
         | (if startsWith body ?c then _ else _) = _ =>
             destruct (startsWith body c) eqn:?E;
             [ injection H as <-;
               match goal with
               | E : startsWith body c = true |- _ =>
                   apply startsWith_true in E as [t ->]
               end;
               exists c, t; split; [|split; reflexivity]
             | ]
         end; try discriminate H;
    try (apply removelast_errorCodes; split;
         [unfold errorCodes; cbn [map In]; tauto | discriminate]).
Qed.

Lemma errorPrefix_throws (p t : jsstring) :
  In p errorPrefixes -> exists e, checkForErrors (p ++ t) = Throw e.
Proof.
  intros [<- | [<- | H]]; [eexists; reflexivity | eexists; reflexivity|].
  apply removelast_errorCodes in H as [Hin Hne].
  eexists; now apply plain_code_classified.
Qed.

Lemma checkForErrors_prefix (body : jsstring) (e : HeroSMSError) :
  checkForErrors body = Throw e ->
  exists p t, In p errorPrefixes /\ body = p ++ t.
Proof.
  intros H; unfold errorPrefixes.
  destruct (checkForErrors_cases _ _ H)
    as [(t & -> & _) | [(t & -> & _) | (code & t & Hin & -> & _)]].
  - exists (str "BANNED:"), t; cbn [In]; auto.
  - exists (str "WRONG_MAX_PRICE:"), t; cbn [In]; auto.
  - exists code, t; cbn [In]; auto.
Qed.

(** X1.  Which bodies are errors: classification throws exactly when the
    body begins with [BANNED:], [WRONG_MAX_PRICE:] or one of the first
    thirteen plain codes, and returns normally exactly when it begins with
    none of them; it never ends any other way. *)
Theorem classification_by_prefix (body : jsstring) :
  ((exists e, checkForErrors body = Throw e)
   <-> exists p t, In p errorPrefixes /\ body = p ++ t)
  /\ (checkForErrors body = Return tt
      <-> forall p, In p errorPrefixes -> startsWith body p = false)
  /\ checkForErrors body <> ThrowTypeError.
Proof.
  split; [|split].
  - split.
    + intros [e H]; exact (checkForErrors_prefix _ _ H).
    + intros (p & t & Hin & ->); now apply errorPrefix_throws.
  - split.
    + intros H p Hin.
      destruct (startsWith body p) eqn:E; [|reflexivity].
      apply startsWith_true in E as [t ->].
      destruct (errorPrefix_throws p t Hin) as [e He]; congruence.
    + intros H.
      destruct (checkForErrors body) as [[]|e|] eqn:E; [reflexivity| |].
      * destruct (checkForErrors_prefix _ _ E) as (p & t & Hin & ->).
        specialize (H p Hin); now rewrite startsWith_app in H.
      * now apply checkForErrors_never_TypeError in E.
  - apply checkForErrors_never_TypeError.
Qed.

Lemma classification_by_prefix_witness :
  startsWith (str "ACCESS_READY") (str "BAD_KEY") = false.
Proof.
  destruct (classification_by_prefix (str "ACCESS_READY")) as (_ & [H _] & _).
  apply (H eq_refl (str "BAD_KEY")).
  unfold errorPrefixes, errorCodes; cbn [map removelast In]; tauto.
Defined.

(** X2.  The code of an error thrown by the classifier is a prefix of the
    body it was raised for, and is [BANNED], [WRONG_MAX_PRICE] or one of
    the first thirteen plain codes: never [NO_ACTIVATIONS], never
    [PARSE_ERROR]. *)
Theorem thrown_code_is_prefix (body : jsstring) (e : HeroSMSError) :
  checkForErrors body = Throw e ->
  startsWith body (Errors.code e) = true
  /\ In (Errors.code e) thrownCodes
  /\ Errors.code e <> str "NO_ACTIVATIONS"
  /\ Errors.code e <> str "PARSE_ERROR".
Proof.
  intros H; unfold thrownCodes.
  destruct (checkForErrors_cases _ _ H)
    as [(t & -> & ->) | [(t & -> & ->) | (code & t & Hin & -> & ->)]].
  - repeat split; try discriminate; cbn [In]; auto.
  - repeat split; try discriminate; cbn [In]; auto.
  - unfold errorCodes in Hin; cbn [map removelast In] in Hin.
    repeat (destruct Hin as [<- | Hin];
            [repeat split; try discriminate;
             unfold errorCodes; cbn [map removelast In]; tauto|]).
    destruct Hin.
Qed.

Lemma thrown_code_is_prefix_witness :
  startsWith (str "NO_KEY: none given") (str "NO_KEY") = true.
Proof.
  apply (thrown_code_is_prefix (str "NO_KEY: none given")
           (new_AuthenticationError (str "NO_KEY")
                                    (str "NO_KEY: none given"))).
  reflexivity.
Defined.

(** X3.  The class of an error thrown by the classifier follows from its
    code, so a caller may dispatch on either: authentication for [BAD_KEY]
    and [NO_KEY], no-numbers for [NO_NUMBERS], not-found for
    [NO_ACTIVATION], early-cancel for [EARLY_CANCEL_DENIED], banned for
    [BANNED], wrong-max-price for [WRONG_MAX_PRICE], and the base class for
    every other code; the payload fields are present on the banned and
    wrong-max-price classes only. *)
Theorem class_follows_code (body : jsstring) (e : HeroSMSError) :
  checkForErrors body = Throw e ->
  (name e = AuthenticationErrorClass
   <-> Errors.code e = str "BAD_KEY" \/ Errors.code e = str "NO_KEY")
  /\ (name e = NoNumbersErrorClass <-> Errors.code e = str "NO_NUMBERS")
  /\ (name e = ActivationNotFoundErrorClass
      <-> Errors.code e = str "NO_ACTIVATION")
  /\ (name e = EarlyCancelErrorClass
      <-> Errors.code e = str "EARLY_CANCEL_DENIED")
  /\ (name e = BannedErrorClass <-> Errors.code e = str "BANNED")
  /\ (name e = WrongMaxPriceErrorClass
      <-> Errors.code e = str "WRONG_MAX_PRICE")
  /\ (bannedUntil e <> None <-> name e = BannedErrorClass)
  /\ (minimumPrice e <> None <-> name e = WrongMaxPriceErrorClass).
Proof.
  intros H.
  destruct (checkForErrors_cases _ _ H)
    as [(t & -> & ->) | [(t & -> & ->) | (code & t & Hin & -> & ->)]].
  - repeat split; try discriminate; try reflexivity; try easy;
      intros [?|?]; discriminate.
  - repeat split; try discriminate; try reflexivity; try easy;
      intros [?|?]; discriminate.
  - unfold errorCodes in Hin; cbn [map removelast In] in Hin.
    repeat (destruct Hin as [<- | Hin];
            [repeat split; try discriminate; try reflexivity; try easy;
             try (intros [?|?]; discriminate); try (now left);
             try (now right)|]).
    destruct Hin.
Qed.

Lemma class_follows_code_witness :
  name (new_NoNumbersError (str "NO_NUMBERS for tg"))
  = NoNumbersErrorClass
  <-> Errors.code (new_NoNumbersError (str "NO_NUMBERS for tg"))
      = str "NO_NUMBERS".
Proof.
  apply (class_follows_code (str "NO_NUMBERS for tg")
           (new_NoNumbersError (str "NO_NUMBERS for tg"))).
  reflexivity.
Defined.

(** X4.  Every plain code has a non-empty text in [ERROR_MESSAGES], so the
    fallback to the bare code is never taken: an error of the base class
    thrown by the classifier always carries the table's text for its
    code. *)
Theorem generic_error_message (body : jsstring) (e : HeroSMSError) :
  checkForErrors body = Throw e -> name e = HeroSMSErrorClass ->
  exists m, lookup ERROR_MESSAGES (Errors.code e) = Some m
            /\ m <> [] /\ message e = Msg m /\ m <> Errors.code e.
Proof.
  intros H Hn.
  destruct (checkForErrors_cases _ _ H)
    as [(t & -> & ->) | [(t & -> & ->) | (code & t & Hin & -> & ->)]];
    try discriminate Hn.
  unfold errorCodes in Hin; cbn [map removelast In] in Hin.
  repeat (destruct Hin as [<- | Hin];
          [first [discriminate Hn
                 | eexists; split; [reflexivity|];
                   split; [discriminate|]; split; [reflexivity|discriminate]]
          |]).
  destruct Hin.
Qed.

Lemma generic_error_message_witness :
  exists m,
    lookup ERROR_MESSAGES (str "CHANNELS_LIMIT") = Some m
    /\ m <> []
    /\ message (new_HeroSMSError (str "CHANNELS_LIMIT")
                  (str "Account channels limit reached")
                  (str "CHANNELS_LIMIT")) = Msg m
    /\ m <> str "CHANNELS_LIMIT".
Proof.
  apply (generic_error_message (str "CHANNELS_LIMIT")
           (new_HeroSMSError (str "CHANNELS_LIMIT")
              (str "Account channels limit reached")
              (str "CHANNELS_LIMIT")));
    reflexivity.
Defined.

Lemma errorFor_fixed (code r1 r2 : jsstring) :
  name (errorFor code r1) = name (errorFor code r2)
  /\ Errors.code (errorFor code r1) = Errors.code (errorFor code r2)
  /\ message (errorFor code r1) = message (errorFor code r2).
Proof.
  unfold errorFor.
  repeat match goal with
         | |- context [if ?b then _ else _] => destruct b
         end; now repeat split.
Qed.

(** X5.  Text appended to an error body never changes the verdict: the
    longer body is an error of the same class and code (for the plain
    codes, with the same message), raised for the longer body. *)
Theorem error_stable_under_suffix (body t : jsstring) (e : HeroSMSError) :
  checkForErrors body = Throw e ->
  exists e',
    checkForErrors (body ++ t) = Throw e'
    /\ name e' = name e /\ Errors.code e' = Errors.code e
    /\ rawResponse e' = body ++ t
    /\ (name e <> BannedErrorClass -> name e <> WrongMaxPriceErrorClass ->
        message e' = message e).
Proof.
  intros H.
  destruct (checkForErrors_cases _ _ H)
    as [(u & -> & ->) | [(u & -> & ->) | (code & u & Hin & -> & ->)]].
  - rewrite <- app_assoc; eexists; split; [reflexivity|].
    repeat split; intros Hn; now elim Hn.
  - rewrite <- app_assoc; eexists; split; [reflexivity|].
    repeat split; intros _ Hn; now elim Hn.
  - apply removelast_errorCodes in Hin as [Hin Hne].
    rewrite <- app_assoc.
    exists (errorFor code (code ++ u ++ t)); split;
      [now apply plain_code_classified|].
    destruct (errorFor_fixed code (code ++ u ++ t) (code ++ u))
      as (Hn & Hc & Hm).
    split; [exact Hn|]; split; [exact Hc|].
    split; [apply errorFor_rawResponse | intros _ _; exact Hm].
Qed.

Lemma error_stable_under_suffix_witness :
  exists e',
    checkForErrors (str "BAD_KEY" ++ str " (revoked)") = Throw e'
    /\ name e' = AuthenticationErrorClass
    /\ Errors.code e' = str "BAD_KEY"
    /\ rawResponse e' = str "BAD_KEY" ++ str " (revoked)"
    /\ (AuthenticationErrorClass <> BannedErrorClass ->
        AuthenticationErrorClass <> WrongMaxPriceErrorClass ->
        message e' = Msg (str "API key is invalid")).
Proof.
  apply (error_stable_under_suffix (str "BAD_KEY") (str " (revoked)")
           (new_AuthenticationError (str "BAD_KEY") (str "BAD_KEY"))).
  reflexivity.
Defined.

(** X6.  The classifier only ever objects to a body that begins with one
    of the letters B, C, E, N, O, W: the empty body and every body with
    another first character pass.  In particular no [ACCESS_...] or
    [STATUS_...] answer is taken for an error. *)
Theorem other_initials_pass :
  checkForErrors [] = Return tt
  /\ (forall (c : N) (t : jsstring),
        errorInitial c = false -> checkForErrors (c :: t) = Return tt)
  /\ (forall t, checkForErrors (str "ACCESS_" ++ t) = Return tt)
  /\ (forall t, checkForErrors (str "STATUS_" ++ t) = Return tt).
Proof.
  split; [reflexivity|]; split; [|split; reflexivity].
  intros c t H; unfold errorInitial in H.
  repeat (apply orb_false_elim in H as [H ?]).
  unfold checkForErrors, errorCodes; cbn [map forCodes].
  rewrite !code_test.
  cbn [str list_ascii_of_string map startsWith].
  change (N_of_ascii "B") with 66%N; change (N_of_ascii "C") with 67%N;
    change (N_of_ascii "E") with 69%N; change (N_of_ascii "N") with 78%N;
    change (N_of_ascii "O") with 79%N; change (N_of_ascii "W") with 87%N.
  repeat match goal with
         | E : (c =? _)%N = false |- _ => rewrite E; clear E
         end.
  reflexivity.
Qed.

Lemma other_initials_pass_witness :
  checkForErrors (str "ACCESS_READY") = Return tt.
Proof.
  destruct other_initials_pass as (_ & H & _).
  apply (H 65%N (str "CCESS_READY")); reflexivity.
Defined.

(** ** How the endpoints use the classifier *)

(** X7.  An error of the classifier ends every endpoint with that same
    error, the text endpoints included: a body that begins with an error
    code is never decoded, whatever follows the code. *)
Theorem classification_error_propagates (body : jsstring)
        (e : HeroSMSError) :
  checkForErrors body = Throw e ->
  request (VString body) = Throw e
  /\ Client.getBalance (VString body) = Throw e
  /\ Client.getNumber (VString body) = Throw e
  /\ Client.getStatus (VString body) = Throw e
  /\ Client.setStatus (VString body) = Throw e
  /\ Client.getNumberV2 (VString body) = Throw e
  /\ Client.getStatusV2 (VString body) = Throw e
  /\ Client.getActiveActivations (VString body) = Throw e
  /\ Client.getHistory (VString body) = Throw e
  /\ Client.getCountries (VString body) = Throw e
  /\ Client.getServicesList (VString body) = Throw e
  /\ Client.getOperators (VString body) = Throw e
  /\ Client.getPrices (VString body) = Throw e
  /\ Client.getTopCountriesByService (VString body) = Throw e
  /\ Client.getTopCountriesByServiceRank (VString body) = Throw e.
Proof.
  intros H.
  unfold Client.getBalance, Client.getNumber, Client.getStatus,
    Client.setStatus, Client.getNumberV2, Client.getStatusV2,
    Client.getActiveActivations, Client.getHistory, Client.getCountries,
    Client.getServicesList, Client.getOperators, Client.getPrices,
    Client.getTopCountriesByService, Client.getTopCountriesByServiceRank.
  rewrite request_string, H; now repeat split.
Qed.

Lemma classification_error_propagates_witness :
  Client.getNumber (VString (str "NO_NUMBERS ACCESS_NUMBER:1:2"))
  = Throw (new_NoNumbersError (str "NO_NUMBERS ACCESS_NUMBER:1:2")).
Proof.
  apply (classification_error_propagates
           (str "NO_NUMBERS ACCESS_NUMBER:1:2")
           (new_NoNumbersError (str "NO_NUMBERS ACCESS_NUMBER:1:2"))).
  reflexivity.
Defined.

Lemma classifier_never_PARSE_ERROR (body : jsstring) (e : HeroSMSError) :
  checkForErrors body = Throw e -> Errors.code e <> str "PARSE_ERROR".
Proof.
  intros H.
  destruct (checkForErrors_cases _ _ H)
    as [(t & -> & ->) | [(t & -> & ->) | (code & t & Hin & -> & ->)]];
    try discriminate.
  unfold errorCodes in Hin; cbn [map removelast In] in Hin.
  repeat (destruct Hin as [<- | Hin]; [discriminate|]).
  destruct Hin.
Qed.

(** X8.  Where an error of a text endpoint comes from can be read off its
    code: the code is [PARSE_ERROR] exactly when the body passed
    classification and the decoder rejected it; with any other code the
    error is the classifier's. *)
Theorem parse_error_means_classified (body : jsstring) (e : HeroSMSError) :
  Client.getBalance (VString body) = Throw e
  \/ Client.getNumber (VString body) = Throw e
  \/ Client.getStatus (VString body) = Throw e ->
  (Errors.code e = str "PARSE_ERROR" <-> checkForErrors body = Return tt)
  /\ (Errors.code e <> str "PARSE_ERROR" <-> checkForErrors body = Throw e).
Proof.
  intros H.
  assert (Hcase : (checkForErrors body = Throw e)
                  \/ (checkForErrors body = Return tt
                      /\ Errors.code e = str "PARSE_ERROR")).
  { unfold Client.getBalance, Client.getNumber, Client.getStatus in H.
    rewrite request_string in H.
    destruct (checkForErrors body) as [[]|e'|] eqn:E; cbn [bind asString] in H.
    - right; split; [reflexivity|].
      destruct H as [H | [H | H]].
      + destruct (String_match body balancePattern) as [[|m1 caps]|];
          try discriminate; now injection H as <-.
      + destruct (String_match body numberPattern) as [[|m1 [|m2 caps]]|];
          try discriminate; now injection H as <-.
      + repeat match type of H with
               | (if ?b then _ else _) = _ => destruct b
               end; try discriminate; now injection H as <-.
    - left; destruct H as [H | [H | H]]; now injection H as <-.
    - destruct H as [H | [H | H]]; discriminate. }
  destruct Hcase as [Hc | [Hc Hp]].
  - pose proof (classifier_never_PARSE_ERROR _ _ Hc) as Hn.
    repeat split; try easy; intros H'; congruence.
  - repeat split; try easy; intros H'; congruence.
Qed.

Lemma parse_error_means_classified_witness :
  Errors.code (parseError "Unexpected status response: " (str "OK"))
  = str "PARSE_ERROR"
  <-> checkForErrors (str "OK") = Return tt.
Proof.
  apply (parse_error_means_classified (str "OK")
           (parseError "Unexpected status response: " (str "OK"))).
  right; right; reflexivity.
Defined.

(** ** What the text decoders return *)

Lemma upToColon_clean (s : jsstring) : forallb notColon (upToColon s) = true.
Proof. unfold upToColon; now destruct (span_spec notColon s) as (_ & H & _). Qed.

(** X9.  Every result of [getStatus] comes from one of the five shapes:
    the answer was a string that passed classification; an OK or WaitRetry
    result comes from a body with that prefix and carries the text up to
    the next colon, so its code never holds a colon; the other three come
    from the exact bodies and carry no code. *)
Theorem getStatus_result_shape (data : JSValue) (r : ParsedStatusResponse) :
  Client.getStatus data = Return r ->
  exists body,
    data = VString body /\ checkForErrors body = Return tt
    /\ match status r with
       | STATUS_OK =>
           exists rest, body = str "STATUS_OK:" ++ rest
                        /\ Types.code r = Some (upToColon rest)
       | STATUS_WAIT_RETRY =>
           exists rest, body = str "STATUS_WAIT_RETRY:" ++ rest
                        /\ Types.code r = Some (upToColon rest)
       | STATUS_WAIT_CODE =>
           body = str "STATUS_WAIT_CODE" /\ Types.code r = None
       | STATUS_WAIT_RESEND =>
           body = str "STATUS_WAIT_RESEND" /\ Types.code r = None
       | STATUS_CANCEL =>
           body = str "STATUS_CANCEL" /\ Types.code r = None
       end
    /\ (forall c, Types.code r = Some c -> forallb notColon c = true).
Proof.
  intros H; unfold Client.getStatus, request in H.
  destruct data as [| | | |body| |]; try discriminate H.
  exists body; split; [reflexivity|].
  destruct (checkForErrors body) as [[]| |] eqn:E; try discriminate H.
  split; [reflexivity|]; cbn [bind asString] in H.
  destruct (startsWith body (str "STATUS_OK:")) eqn:E1.
  { apply startsWith_true in E1 as [rest ->].
    pose proof (second_field (str "STATUS_OK") rest eq_refl) as Hs.
    change (str "STATUS_OK" ++ colon :: rest)
      with (str "STATUS_OK:" ++ rest) in Hs.
    rewrite Hs in H; injection H as <-; cbn [status Types.code]; split.
    - now exists rest.
    - intros c [= <-]; apply upToColon_clean. }
  destruct (startsWith body (str "STATUS_WAIT_RETRY:")) eqn:E2.
  { apply startsWith_true in E2 as [rest ->].
    pose proof (second_field (str "STATUS_WAIT_RETRY") rest eq_refl) as Hs.
    change (str "STATUS_WAIT_RETRY" ++ colon :: rest)
      with (str "STATUS_WAIT_RETRY:" ++ rest) in Hs.
    rewrite Hs in H; injection H as <-; cbn [status Types.code]; split.
    - now exists rest.
    - intros c [= <-]; apply upToColon_clean. }
  destruct (strict_eq body (str "STATUS_WAIT_CODE")) eqn:E3.
  { apply strict_eq_true in E3; injection H as <-; now repeat split. }
  destruct (strict_eq body (str "STATUS_WAIT_RESEND")) eqn:E4.
  { apply strict_eq_true in E4; injection H as <-; now repeat split. }
  destruct (strict_eq body (str "STATUS_CANCEL")) eqn:E5; [|discriminate H].
  apply strict_eq_true in E5; injection H as <-; now repeat split.
Qed.

Lemma getStatus_result_shape_witness :
  exists body,
    VString (str "STATUS_OK:48:15") = VString body
    /\ checkForErrors body = Return tt
    /\ (exists rest, body = str "STATUS_OK:" ++ rest
                     /\ Some (str "48") = Some (upToColon rest))
    /\ (forall c, Some (str "48") = Some c -> forallb notColon c = true).
Proof.
  apply (getStatus_result_shape (VString (str "STATUS_OK:48:15"))
           {| status := STATUS_OK; Types.code := Some (str "48") |}).
  reflexivity.
Defined.

(** ** Numbers read from digits *)

Lemma shr_1_nonneg (mrs : shr_record) :
  (0 <= shr_m mrs)%Z -> (0 <= shr_m (shr_1 mrs))%Z.
Proof.
  destruct mrs as [m r s]; destruct m as [|[p|p|]|[p|p|]]; cbn; lia.
Qed.

Lemma iter_shr_1_nonneg (p : positive) (mrs : shr_record) :
  (0 <= shr_m mrs)%Z -> (0 <= shr_m (iter_pos shr_1 p mrs))%Z.
Proof.
  revert mrs; induction p as [p IH|p IH|]; intros mrs H; cbn [iter_pos];
    auto using shr_1_nonneg.
Qed.

Lemma shr_fexp_nonneg (m e : Z) (l : location) :
  (0 <= m)%Z -> (0 <= shr_m (fst (shr_fexp prec emax m e l)))%Z.
Proof.
  intros H; unfold shr_fexp, shr.
  assert (H0 : (0 <= shr_m (shr_record_of_loc m l))%Z)
    by (destruct l as [|[]]; exact H).
  destruct (fexp prec emax (Zdigits2 m + e) - e)%Z; cbn [fst];
    auto using iter_shr_1_nonneg.
Qed.

Lemma binary_round_aux_sign (s : bool) (m e : Z) (l : location) :
  (0 <= m)%Z -> hasSign s (binary_round_aux prec emax s m e l).
Proof.
  intros H; unfold binary_round_aux.
  pose proof (shr_fexp_nonneg m e l H) as H1.
  destruct (shr_fexp prec emax m e l) as [mrs' e']; cbn [fst] in H1.
  assert (H2 : (0 <= round_nearest_even (shr_m mrs')
                                          (loc_of_shr_record mrs'))%Z).
  { unfold round_nearest_even.
    destruct (loc_of_shr_record mrs') as [|[]]; try assumption;
      [destruct (Z.even (shr_m mrs'))|]; lia. }
  pose proof (shr_fexp_nonneg _ e' loc_Exact H2) as H3.
  destruct (shr_fexp prec emax _ e' loc_Exact) as [mrs'' e''].
  cbn [fst] in H3.
  destruct (shr_m mrs'') as [|p|p]; [reflexivity| |lia].
  now destruct (e'' <=? emax - prec)%Z.
Qed.

Lemma roundDecimal_sign (neg : bool) (m e : Z) :
  (0 <= m)%Z -> hasSign neg (roundDecimal neg m e).
Proof.
  intros Hm; unfold roundDecimal.
  destruct m as [|p|p]; [reflexivity| |lia].
  destruct e as [|k|k].
  - destruct (Z.pos p * 10 ^ 0)%Z; try reflexivity.
    unfold binary_round; destruct (shl_align _ _ _).
    now apply binary_round_aux_sign.
  - destruct (Z.pos p * 10 ^ Z.pos k)%Z; try reflexivity.
    unfold binary_round; destruct (shl_align _ _ _).
    now apply binary_round_aux_sign.
  - unfold SFdiv_core_binary.
    set (m' := match _ with Z.pos _ => _ | _ => _ end).
    assert (Hm' : (0 <= m')%Z).
    { subst m'.
      destruct (_ - _ - _)%Z; try lia.
      apply Z.shiftl_nonneg; lia. }
    pose proof (Z.div_pos m' (Z.pow_pos 10 k) Hm') as Hq.
    unfold Z.div in Hq.
    destruct (Z.div_eucl m' (Z.pow_pos 10 k)) as [q r].
    apply binary_round_aux_sign, Hq.
    rewrite Z.pow_pos_fold; apply Z.pow_pos_nonneg; lia.
Qed.

Lemma digitsValue_nonneg (ds : jsstring) :
  forallb isDigit ds = true -> (0 <= digitsValue ds)%Z.
Proof.
  unfold digitsValue.
  assert (H : forall acc, (0 <= acc)%Z -> forallb isDigit ds = true ->
                (0 <= fold_left (fun acc c => acc * 10 + digitValue c) ds
                                acc)%Z).
  { induction ds as [|c ds IH]; intros acc Ha Hd; cbn [fold_left];
      [exact Ha|].
    cbn [forallb] in Hd; apply andb_true_iff in Hd as [Hc Hd].
    apply IH; [|exact Hd].
    unfold isDigit in Hc; apply andb_true_iff in Hc as [H1 H2].
    apply N.leb_le in H1; unfold digitValue; lia. }
  intros Hd; apply H; [lia | exact Hd].
Qed.

Lemma digits2_pos_bounds (p : positive) :
  (2 ^ (Z.pos (digits2_pos p) - 1) <= Z.pos p < 2 ^ Z.pos (digits2_pos p))%Z.
Proof.
  induction p as [p IH|p IH|]; cbn [digits2_pos]; [| |cbn; lia].
  - rewrite Pos2Z.inj_succ.
    replace (Z.succ (Z.pos (digits2_pos p)) - 1)%Z
      with (Z.succ (Z.pos (digits2_pos p) - 1)) by lia.
    rewrite !Z.pow_succ_r by lia; lia.
  - rewrite Pos2Z.inj_succ.
    replace (Z.succ (Z.pos (digits2_pos p)) - 1)%Z
      with (Z.succ (Z.pos (digits2_pos p) - 1)) by lia.
    rewrite !Z.pow_succ_r by lia; lia.
Qed.

Lemma iter_xO_digits (p k : positive) :
  digits2_pos (Pos.iter xO p k) = (digits2_pos p + k)%positive.
Proof.
  induction k as [|k IH] using Pos.peano_ind.
  - cbn; now rewrite Pos.add_1_r.
  - rewrite Pos.iter_succ; cbn [digits2_pos]; rewrite IH.
    now rewrite Pos.add_succ_r.
Qed.

Lemma iter_xO_value (p k : positive) :
  Z.pos (Pos.iter xO p k) = (Z.pos p * 2 ^ Z.pos k)%Z.
Proof.
  induction k as [|k IH] using Pos.peano_ind.
  - cbn; lia.
  - rewrite Pos.iter_succ, Pos2Z.inj_succ, Z.pow_succ_r by lia.
    rewrite Pos2Z.inj_xO, IH; lia.
Qed.

(** A mantissa of 53 bits with an exponent in range is kept as it is. *)
Lemma binary_round_aux_exact (s : bool) (mz : positive) (ez : Z) :
  Z.pos (digits2_pos mz) = 53%Z -> (-1074 <= ez <= 971)%Z ->
  binary_round_aux prec emax s (Z.pos mz) ez loc_Exact
  = S754_finite s mz ez.
Proof.
  intros Hd He; unfold binary_round_aux, shr_fexp.
  cbn [Zdigits2 shr_record_of_loc]; rewrite Hd.
  replace (fexp prec emax (53 + ez) - ez)%Z with 0%Z
    by (unfold fexp, emin, prec, emax; lia).
  cbn [shr shr_m loc_of_shr_record round_nearest_even Zdigits2
       shr_record_of_loc].
  rewrite Hd.
  replace (fexp prec emax (53 + ez) - ez)%Z with 0%Z
    by (unfold fexp, emin, prec, emax; lia).
  cbn [shr shr_m].
  replace (ez <=? emax - prec)%Z with true; [reflexivity|].
  symmetry; apply Z.leb_le; unfold emax, prec; lia.
Qed.

Lemma ofInteger_exact (z : Z) :
  (0 <= z < 2 ^ 53)%Z -> exactly (ofInteger false z) z.
Proof.
  intros [H0 H53]; destruct z as [|p|p]; [reflexivity| |lia].
  unfold ofInteger, roundDecimal.
  rewrite Z.pow_0_r, Z.mul_1_r.
  unfold binary_round, shl_align.
  pose proof (digits2_pos_bounds p) as [Hlo Hhi].
  set (d := Z.pos (digits2_pos p)) in *.
  assert (Hd : (1 <= d <= 53)%Z).
  { split; [subst d; lia|].
    assert (d - 1 < 53)%Z; [|lia].
    apply (Z.pow_lt_mono_r_iff 2); lia. }
  replace (fexp prec emax (d + 0)) with (d - 53)%Z
    by (unfold fexp, emin, prec, emax; lia).
  destruct (d - 53 - 0)%Z as [|k|k] eqn:Ek; [|lia|].
  - rewrite binary_round_aux_exact by (fold d; lia).
    cbn; lia.
  - rewrite binary_round_aux_exact.
    + cbn [exactly]; split; [lia|]; intros _.
      rewrite iter_xO_value; f_equal; f_equal; lia.
    + rewrite iter_xO_digits, Pos2Z.inj_add; fold d; lia.
    + lia.
Qed.

Lemma exactly_unique (x : number) (z1 z2 : Z) :
  exactly x z1 -> exactly x z2 -> z1 = z2.
Proof.
  destruct x as [s|s| |s m e]; cbn [exactly]; try easy; [congruence|].
  intros [Hp1 Hn1] [Hp2 Hn2].
  destruct (Z_le_gt_dec 0 e) as [He | He].
  - rewrite (Hp1 He), (Hp2 He); reflexivity.
  - assert (0 < 2 ^ (- e))%Z by (apply Z.pow_pos_nonneg; lia).
    assert (Hle : (e <= 0)%Z) by lia.
    specialize (Hn1 Hle); specialize (Hn2 Hle).
    rewrite Hn1 in Hn2; nia.
Qed.

(** X10.  Every result of [getNumber] comes from an occurrence of the
    pattern in a string that passed classification: the phone number is a
    non-empty piece of the body, on one line, that follows digits and a
    colon, and the activation id is the Number read from those digits,
    which is never NaN and never negative. *)
Theorem getNumber_result_shape (data : JSValue) (r : ParsedNumberResponse) :
  Client.getNumber data = Return r ->
  exists body pre ds rest,
    data = VString body /\ checkForErrors body = Return tt
    /\ body = pre ++ str "ACCESS_NUMBER:" ++ ds ++ colon
                  :: phoneNumber r ++ rest
    /\ ds <> [] /\ forallb isDigit ds = true
    /\ activationId r = ofInteger false (digitsValue ds)
    /\ nonNegative (activationId r)
    /\ phoneNumber r <> [] /\ forallb dot (phoneNumber r) = true
    /\ lineEnd rest = true.
Proof.
  intros H; unfold Client.getNumber, request in H.
  destruct data as [| | | |body| |]; try discriminate H.
  destruct (checkForErrors body) as [[]| |] eqn:E; try discriminate H.
  cbn [bind asString] in H.
  destruct (String_match body numberPattern) as [caps|] eqn:Em;
    [|discriminate H].
  apply String_match_position in Em as (pre & post & -> & Em).
  destruct (number_matchAt_inv _ _ Em)
    as (ds & text & rest & -> & -> & Hne & Hds & Htne & Hd & Hl).
  injection H as <-; cbn [phoneNumber activationId].
  exists (pre ++ str "ACCESS_NUMBER:" ++ ds ++ colon :: text ++ rest),
    pre, ds, rest.
  rewrite parseInt10_digits by assumption.
  repeat split; try assumption.
  apply roundDecimal_sign, digitsValue_nonneg, Hds.
Qed.

Lemma getNumber_result_shape_witness :
  exists body pre ds rest,
    VString (str "ACCESS_NUMBER:7:555") = VString body
    /\ checkForErrors body = Return tt
    /\ body = pre ++ str "ACCESS_NUMBER:" ++ ds ++ colon :: str "555" ++ rest
    /\ ds <> [] /\ forallb isDigit ds = true
    /\ ofInteger false 7 = ofInteger false (digitsValue ds)
    /\ nonNegative (ofInteger false 7)
    /\ str "555" <> [] /\ forallb dot (str "555") = true
    /\ lineEnd rest = true.
Proof.
  apply (getNumber_result_shape (VString (str "ACCESS_NUMBER:7:555"))
           {| activationId := ofInteger false 7;
              phoneNumber := str "555" |}).
  reflexivity.
Defined.

(** X11.  An activation id of fewer than 2^53 is decoded without loss:
    the value of the Number returned is the integer the digits denote
    (leading zeros allowed) and no other integer, so two different ids
    below that bound never decode to the same Number.  Above the bound
    this fails: for the digits 9007199254740993, which are 2^53 + 1, the
    Number returned has the value 2^53, not 2^53 + 1. *)
Theorem activationId_exact (ds text rest : jsstring) :
  ds <> [] -> forallb isDigit ds = true ->
  text <> [] -> forallb dot text = true -> lineEnd rest = true ->
  (digitsValue ds < 2 ^ 53)%Z ->
  (exists r,
     Client.getNumber
       (VString (str "ACCESS_NUMBER:" ++ ds ++ colon :: text ++ rest))
     = Return r
     /\ exactly (activationId r) (digitsValue ds)
     /\ (forall z, exactly (activationId r) z -> z = digitsValue ds)
     /\ phoneNumber r = text)
  /\ (exists r,
        Client.getNumber
          (VString (str "ACCESS_NUMBER:" ++ str "9007199254740993"
                      ++ colon :: text ++ rest))
        = Return r
        /\ digitsValue (str "9007199254740993") = (2 ^ 53 + 1)%Z
        /\ exactly (activationId r) (2 ^ 53)
        /\ ~ exactly (activationId r) (2 ^ 53 + 1)).
Proof.
  intros Hne Hds Htne Hd Hl Hlt.
  assert (Hex : exactly (ofInteger false (digitsValue ds)) (digitsValue ds))
    by (apply ofInteger_exact; split;
        [now apply digitsValue_nonneg | exact Hlt]).
  split.
  - eexists; split; [now apply getNumber_value_head|].
    cbn [activationId phoneNumber]; split; [exact Hex|]; split;
      [|reflexivity].
    intros z Hz; exact (exactly_unique _ _ _ Hz Hex).
  - eexists; split;
      [apply getNumber_value_head; try assumption;
       [discriminate | reflexivity]|].
    cbn [activationId].
    assert (Hr : exactly (ofInteger false
                            (digitsValue (str "9007199254740993")))
                         (2 ^ 53))
      by (vm_compute; split; [intros _; reflexivity | intros H; now elim H]).
    split; [reflexivity|]; split; [exact Hr|].
    intros Hz; pose proof (exactly_unique _ _ _ Hz Hr); lia.
Qed.

Lemma activationId_exact_witness :
  exists r,
    Client.getNumber
      (VString (str "ACCESS_NUMBER:" ++ str "0123456789" ++ colon
                  :: str "79001234567" ++ []))
    = Return r
    /\ exactly (activationId r) (digitsValue (str "0123456789"))
    /\ (forall z, exactly (activationId r) z ->
                  z = digitsValue (str "0123456789"))
    /\ phoneNumber r = str "79001234567".
Proof.
  apply (activationId_exact (str "0123456789") (str "79001234567") []);
    try discriminate; try reflexivity.
Defined.

(** ** When a parsed number is NaN *)

Lemma span_digits_head (s : jsstring) :
  fst (span isDigit s) = [] <->
  match s with d :: _ => isDigit d | [] => false end = false.
Proof.
  destruct s as [|d s]; cbn [span]; [easy|].
  destruct (isDigit d); [|easy].
  destruct (span isDigit s); easy.
Qed.

Lemma roundDecimal_not_NaN (neg : bool) (ds : jsstring) (e : Z) :
  forallb isDigit ds = true -> roundDecimal neg (digitsValue ds) e <> NaN.
Proof.
  intros Hd H.
  pose proof (roundDecimal_sign neg _ e (digitsValue_nonneg ds Hd)) as Hs.
  now rewrite H in Hs.
Qed.

Lemma readUnsignedDecimal_NaN (neg : bool) (u : jsstring) :
  readUnsignedDecimal neg u = NaN <->
  startsWith u (str "Infinity")
  || match u with
     | c :: r =>
         isDigit c
         || ((c =? 46)%N
             && match r with
                | d :: _ => isDigit d
                | [] => false
                end)
     | [] => false
     end = false.
Proof.
  unfold readUnsignedDecimal.
  destruct (startsWith u (str "Infinity")); [easy|]; cbn [orb].
  destruct (span_spec isDigit u) as (_ & Hip & _).
  destruct u as [|c r]; [easy|].
  cbn [span] in *.
  destruct (isDigit c) eqn:Ec.
  - destruct (span isDigit r) as [a r1] eqn:Er; cbn [fst orb] in *.
    destruct (startsWith r1 (str ".")).
    + pose proof (span_spec isDigit (tl r1)) as (_ & Hfp & _).
      destruct (span isDigit (tl r1)) as [fp r2]; cbn [fst] in Hfp.
      split; [|discriminate].
      intros H; exfalso; revert H; apply roundDecimal_not_NaN.
      rewrite forallb_app; cbn [forallb] in *; now rewrite Hip, Hfp.
    + split; [|discriminate].
      intros H; exfalso; revert H; now apply roundDecimal_not_NaN.
  - cbn [orb].
    change (startsWith (c :: r) (str "."))
      with ((c =? 46)%N && startsWith r []).
    cbn [startsWith]; rewrite andb_true_r.
    destruct (c =? 46)%N; [|easy]; cbn [tl andb].
    pose proof (span_spec isDigit r) as (_ & Hfp & _).
    pose proof (span_digits_head r) as Hh.
    destruct (span isDigit r) as [fp r2]; cbn [fst] in *.
    destruct fp as [|d fp].
    + split; [intros _; now apply Hh | reflexivity].
    + split.
      * intros H; exfalso; revert H; now apply roundDecimal_not_NaN.
      * intros H; apply Hh in H; discriminate.
Qed.

Lemma parseFloat_NaN (s : jsstring) :
  parseFloat s = NaN <-> hasNumber s = false.
Proof.
  unfold parseFloat, hasNumber.
  destruct (readSign (dropWhile isStrWhiteSpaceChar s)) as [neg u].
  apply readUnsignedDecimal_NaN.
Qed.

(** X12.  When the balance or the minimum price is NaN.  For a body that
    begins with [ACCESS_BALANCE:], [getBalance] returns NaN exactly when
    the text up to the end of the line does not start (after white space
    and an optional sign) with [Infinity], a digit, or a point and a digit.
    The minimum price of a [WRONG_MAX_PRICE:] error is NaN exactly when the
    second field is non-empty and does not start so. *)
Theorem NaN_when_no_number :
  (forall text rest : jsstring,
     text <> [] -> forallb dot text = true -> lineEnd rest = true ->
     (Client.getBalance (VString (str "ACCESS_BALANCE:" ++ text ++ rest))
      = Return NaN
      <-> hasNumber text = false))
  /\ (forall (rest : jsstring) (e : HeroSMSError),
        checkForErrors (str "WRONG_MAX_PRICE:" ++ rest) = Throw e ->
        (minimumPrice e = Some NaN
         <-> upToColon rest <> [] /\ hasNumber (upToColon rest) = false)).
Proof.
  split.
  - intros text rest Hne Hd Hl.
    rewrite getBalance_value_head by assumption.
    rewrite <- parseFloat_NaN; split; [now intros [= ->] | now intros ->].
  - intros rest e H.
    rewrite checkForErrors_price in H.
    pose proof (second_field (str "WRONG_MAX_PRICE") rest eq_refl) as Hs.
    change (str "WRONG_MAX_PRICE" ++ colon :: rest)
      with (str "WRONG_MAX_PRICE:" ++ rest) in Hs.
    rewrite Hs in H; injection H as <-; cbn [minimumPrice].
    rewrite <- parseFloat_NaN.
    destruct (upToColon rest) as [|c f]; cbn [or_else]; split.
    + discriminate.
    + now intros [H _].
    + intros [= ->]; split; [discriminate | reflexivity].
    + now intros [_ ->].
Qed.

Lemma NaN_when_no_number_witness :
  (Client.getBalance
     (VString (str "ACCESS_BALANCE:" ++ str " n/a" ++ []))
   = Return NaN
   <-> hasNumber (str " n/a") = false)
  /\ (minimumPrice
        (new_WrongMaxPriceError (str "WRONG_MAX_PRICE:" ++ str "-:1") NaN)
      = Some NaN
      <-> upToColon (str "-:1") <> []
          /\ hasNumber (upToColon (str "-:1")) = false).
Proof.
  destruct NaN_when_no_number as [Hb Hp]; split.
  - apply (Hb (str " n/a") []); try discriminate; reflexivity.
  - apply (Hp (str "-:1")
              (new_WrongMaxPriceError (str "WRONG_MAX_PRICE:" ++ str "-:1")
                                      NaN)).
    reflexivity.
Defined.

(** ** What the methods send *)

(** X13.  Every method of the client, on every transport and whatever
    the options, sends parameters that hold the client's key as [api_key]
    and the method's own action as [action] (the four status helpers send
    the action [setStatus]), and hands the answer to its decoder: no
    parameter a method adds has either name. *)
Theorem requests_carry_key_and_action (key : jsstring) :
  carries (fun E (c : Api.HeroSMSClient E) => Api.getBalance c)
          key "getBalance" Client.getBalance
  /\ (forall o,
        carries (fun E (c : Api.HeroSMSClient E) => Api.getNumber c o)
                key "getNumber" Client.getNumber)
  /\ (forall o,
        carries (fun E (c : Api.HeroSMSClient E) => Api.getNumberV2 c o)
                key "getNumberV2" Client.getNumberV2)
  /\ (forall id status,
        carries (fun E (c : Api.HeroSMSClient E) =>
                   Api.setStatus c id status)
                key "setStatus" Client.setStatus)
  /\ (forall id,
        carries (fun E (c : Api.HeroSMSClient E) => Api.markReady c id)
                key "setStatus" Client.setStatus
        /\ carries (fun E (c : Api.HeroSMSClient E) =>
                      Api.requestResend c id)
                   key "setStatus" Client.setStatus
        /\ carries (fun E (c : Api.HeroSMSClient E) => Api.complete c id)
                   key "setStatus" Client.setStatus
        /\ carries (fun E (c : Api.HeroSMSClient E) => Api.cancel c id)
                   key "setStatus" Client.setStatus)
  /\ (forall id,
        carries (fun E (c : Api.HeroSMSClient E) => Api.getStatus c id)
                key "getStatus" Client.getStatus)
  /\ (forall id,
        carries (fun E (c : Api.HeroSMSClient E) => Api.getStatusV2 c id)
                key "getStatusV2" Client.getStatusV2)
  /\ carries (fun E (c : Api.HeroSMSClient E) =>
                Api.getActiveActivations c)
             key "getActiveActivations" Client.getActiveActivations
  /\ (forall o,
        carries (fun E (c : Api.HeroSMSClient E) => Api.getHistory c o)
                key "getHistory" Client.getHistory)
  /\ carries (fun E (c : Api.HeroSMSClient E) => Api.getCountries c)
             key "getCountries" Client.getCountries
  /\ (forall o,
        carries (fun E (c : Api.HeroSMSClient E) => Api.getServicesList c o)
                key "getServicesList" Client.getServicesList)
  /\ (forall country,
        carries (fun E (c : Api.HeroSMSClient E) =>
                   Api.getOperators c country)
                key "getOperators" Client.getOperators)
  /\ (forall o,
        carries (fun E (c : Api.HeroSMSClient E) => Api.getPrices c o)
                key "getPrices" Client.getPrices)
  /\ (forall o,
        carries (fun E (c : Api.HeroSMSClient E) =>
                   Api.getTopCountriesByService c o)
                key "getTopCountriesByService"
                Client.getTopCountriesByService)
  /\ (forall o,
        carries (fun E (c : Api.HeroSMSClient E) =>
                   Api.getTopCountriesByServiceRank c o)
                key "getTopCountriesByServiceRank"
                Client.getTopCountriesByServiceRank).
Proof.
  assert (Hsend : forall (A : Type) (action : string) (params : Api.Obj)
                         (k : JSValue -> outcome A),
             keyed key action (Api.requestParams key action params) ->
             carries (fun E (c : Api.HeroSMSClient E) =>
                        Api.send c action params k) key action k).
  { intros A action params k Hk.
    exists (Api.requestParams key action params); split; [|exact Hk].
    intros E t; reflexivity. }
  repeat split; intros; apply Hsend.
  - now split.
  - destruct o as [sv co [mp|] [[|? ?]|] [[|? ?]|]]; now split.
  - destruct o as [sv co [mp|] [[|? ?]|] [[|? ?]|]]; now split.
  - now split.
  - now split.
  - now split.
  - now split.
  - now split.
  - now split.
  - now split.
  - now split.
  - destruct o as [[?|] [?|] [?|] [?|]]; now split.
  - now split.
  - destruct o as [[?|] [[|? ?]|]]; now split.
  - destruct country; now split.
  - destruct o as [[[|? ?]|] [?|]]; now split.
  - destruct o as [[[|? ?]|] [?|]]; now split.
  - destruct o as [[[|? ?]|] [?|]]; now split.
Qed.

(** X14.  The four status helpers are [setStatus] requests with the
    status numbers 1 (ready), 3 (resend), 6 (complete) and 8 (cancel): for
    every transport, each sends exactly the key, the action [setStatus],
    the id and its number, and gives back what [setStatus] makes of the
    answer. *)
Theorem status_helpers_send (E : Type) (c : Api.HeroSMSClient E)
        (id : number) :
  let sent (n : Z) :=
    match
      Api.httpClient c
        [(str "api_key", VString (Api.apiKey c));
         (str "action", VString (str "setStatus"));
         (str "id", VNumber id);
         (str "status", VNumber (ofInteger false n))]
    with
    | inl err => inl err
    | inr data => inr (Client.setStatus data)
    end in
  Api.markReady c id = sent 1%Z
  /\ Api.requestResend c id = sent 3%Z
  /\ Api.complete c id = sent 6%Z
  /\ Api.cancel c id = sent 8%Z
  /\ Api.setStatus c id Api.SMS_SENT = Api.markReady c id
  /\ Api.setStatus c id Api.CANCEL = Api.cancel c id.
Proof. now repeat split. Qed.

Lemma getProp_In (o : Api.Obj) (k : jsstring) :
  Api.getProp o k <> None -> In k (map fst o).
Proof.
  induction o as [|[k' v] o IH]; cbn [Api.getProp map fst In]; [easy|].
  destruct (strict_eq k' k) eqn:E; [|auto].
  apply strict_eq_true in E; auto.
Qed.

(** X15.  What [getNumber] and [getNumberV2] send, on every transport:
    the key, the method's action, the service and the country always;
    [maxPrice] whenever it is given, a price of 0 included; [ref] and
    [operator] only when they are non-empty strings; and nothing else. *)
Theorem getNumber_query (key : jsstring) (options : Api.GetNumberOptions.t) :
  let query (P : Api.Obj) :=
    Api.getProp P (str "service")
    = Some (VString (Api.GetNumberOptions.service options))
    /\ Api.getProp P (str "country")
       = Some (VNumber (Api.GetNumberOptions.country options))
    /\ Api.getProp P (str "maxPrice")
       = option_map VNumber (Api.GetNumberOptions.maxPrice options)
    /\ Api.getProp P (str "ref")
       = whenTruthy (Api.GetNumberOptions.ref options)
    /\ Api.getProp P (str "operator")
       = whenTruthy (Api.GetNumberOptions.operator options)
    /\ (forall k, Api.getProp P k <> None ->
          In k (map str ["api_key"; "action"; "service"; "country";
                         "maxPrice"; "ref"; "operator"]%string)) in
  (exists P,
     sendsTo (fun E (c : Api.HeroSMSClient E) => Api.getNumber c options)
             key P Client.getNumber
     /\ keyed key "getNumber" P /\ query P)
  /\ (exists P,
        sendsTo (fun E (c : Api.HeroSMSClient E) =>
                   Api.getNumberV2 c options)
                key P Client.getNumberV2
        /\ keyed key "getNumberV2" P /\ query P).
Proof.
  cbv zeta.
  assert (H : forall action,
             let P := Api.requestParams key action
                                        (Api.getNumberParams options) in
             keyed key action P
             /\ Api.getProp P (str "service")
                = Some (VString (Api.GetNumberOptions.service options))
             /\ Api.getProp P (str "country")
                = Some (VNumber (Api.GetNumberOptions.country options))
             /\ Api.getProp P (str "maxPrice")
                = option_map VNumber (Api.GetNumberOptions.maxPrice options)
             /\ Api.getProp P (str "ref")
                = whenTruthy (Api.GetNumberOptions.ref options)
             /\ Api.getProp P (str "operator")
                = whenTruthy (Api.GetNumberOptions.operator options)
             /\ (forall k, Api.getProp P k <> None ->
                   In k (map str ["api_key"; "action"; "service"; "country";
                                  "maxPrice"; "ref"; "operator"]%string))).
  { intros action; cbv zeta; unfold keyed; repeat split;
      try (destruct options as [sv co [mp|] [[|? ?]|] [[|? ?]|]];
           reflexivity).
    intros k Hk; apply getProp_In in Hk.
    destruct options as [sv co [mp|] [[|? ?]|] [[|? ?]|]];
      vm_compute in Hk |- *; tauto. }
  split.
  - exists (Api.requestParams key "getNumber" (Api.getNumberParams options)).
    split; [intros E t; reflexivity | apply H].
  - exists (Api.requestParams key "getNumberV2"
                               (Api.getNumberParams options)).
    split; [intros E t; reflexivity | apply H].
Qed.

Lemma getNumber_query_witness :
  exists P,
    sendsTo (fun E (c : Api.HeroSMSClient E) =>
               Api.getNumber c
                 {| Api.GetNumberOptions.service := str "tg";
                    Api.GetNumberOptions.country := ofInteger false 2;
                    Api.GetNumberOptions.maxPrice := Some (S754_zero false);
                    Api.GetNumberOptions.ref := Some [];
                    Api.GetNumberOptions.operator := None |})
            (str "k") P Client.getNumber
    /\ Api.getProp P (str "maxPrice") = Some (VNumber (S754_zero false))
    /\ Api.getProp P (str "ref") = None
    /\ In (str "maxPrice")
          (map str ["api_key"; "action"; "service"; "country";
                    "maxPrice"; "ref"; "operator"]%string).
Proof.
  destruct (getNumber_query (str "k")
              {| Api.GetNumberOptions.service := str "tg";
                 Api.GetNumberOptions.country := ofInteger false 2;
                 Api.GetNumberOptions.maxPrice := Some (S754_zero false);
                 Api.GetNumberOptions.ref := Some [];
                 Api.GetNumberOptions.operator := None |})
    as [(P & Hs & _ & _ & _ & Hm & Hr & _ & Hall) _].
  exists P; split; [exact Hs|]; split; [exact Hm|]; split; [exact Hr|].
  apply (Hall (str "maxPrice")); rewrite Hm; discriminate.
Defined.

(** X16.  What the list endpoints send, on every transport.  A numeric or
    boolean option is sent whenever it is given, so a country 0 or a
    [freePrice] of false reaches the service; a string option is sent only
    when it is non-empty. *)
Theorem list_endpoint_queries (key : jsstring) :
  (forall o : Api.GetHistoryOptions.t,
     exists P,
       sendsTo (fun E (c : Api.HeroSMSClient E) => Api.getHistory c o)
               key P Client.getHistory
       /\ keyed key "getHistory" P
       /\ Api.getProp P (str "start")
          = option_map VNumber (Api.GetHistoryOptions.start o)
       /\ Api.getProp P (str "end")
          = option_map VNumber (Api.GetHistoryOptions.end_ o)
       /\ Api.getProp P (str "offset")
          = option_map VNumber (Api.GetHistoryOptions.offset o)
       /\ Api.getProp P (str "size")
          = option_map VNumber (Api.GetHistoryOptions.size o))
  /\ (forall o : Api.GetServicesListOptions.t,
        exists P,
          sendsTo (fun E (c : Api.HeroSMSClient E) =>
                     Api.getServicesList c o)
                  key P Client.getServicesList
          /\ keyed key "getServicesList" P
          /\ Api.getProp P (str "country")
             = option_map VNumber (Api.GetServicesListOptions.country o)
          /\ Api.getProp P (str "lang")
             = whenTruthy (Api.GetServicesListOptions.lang o))
  /\ (forall country : option number,
        exists P,
          sendsTo (fun E (c : Api.HeroSMSClient E) =>
                     Api.getOperators c country)
                  key P Client.getOperators
          /\ keyed key "getOperators" P
          /\ Api.getProp P (str "country") = option_map VNumber country)
  /\ (forall o : Api.GetPricesOptions.t,
        exists P,
          sendsTo (fun E (c : Api.HeroSMSClient E) => Api.getPrices c o)
                  key P Client.getPrices
          /\ keyed key "getPrices" P
          /\ Api.getProp P (str "service")
             = whenTruthy (Api.GetPricesOptions.service o)
          /\ Api.getProp P (str "country")
             = option_map VNumber (Api.GetPricesOptions.country o))
  /\ (forall o : Api.GetTopCountriesOptions.t,
        (exists P,
           sendsTo (fun E (c : Api.HeroSMSClient E) =>
                      Api.getTopCountriesByService c o)
                   key P Client.getTopCountriesByService
           /\ keyed key "getTopCountriesByService" P
           /\ Api.getProp P (str "service")
              = whenTruthy (Api.GetTopCountriesOptions.service o)
           /\ Api.getProp P (str "freePrice")
              = option_map VBoolean (Api.GetTopCountriesOptions.freePrice o))
        /\ (exists P,
              sendsTo (fun E (c : Api.HeroSMSClient E) =>
                         Api.getTopCountriesByServiceRank c o)
                      key P Client.getTopCountriesByServiceRank
              /\ keyed key "getTopCountriesByServiceRank" P
              /\ Api.getProp P (str "service")
                 = whenTruthy (Api.GetTopCountriesOptions.service o)
              /\ Api.getProp P (str "freePrice")
                 = option_map VBoolean
                     (Api.GetTopCountriesOptions.freePrice o))).
Proof.
  unfold keyed; repeat split.
  - intros o.
    exists (Api.requestParams key "getHistory" (Api.getHistoryParams o)).
    split; [intros E t; reflexivity|].
    destruct o as [[?|] [?|] [?|] [?|]]; now repeat split.
  - intros o.
    exists (Api.requestParams key "getServicesList"
                               (Api.getServicesListParams o)).
    split; [intros E t; reflexivity|].
    destruct o as [[?|] [[|? ?]|]]; now repeat split.
  - intros country.
    exists (Api.requestParams key "getOperators"
                               (Api.getOperatorsParams country)).
    split; [intros E t; reflexivity|].
    destruct country; now repeat split.
  - intros o.
    exists (Api.requestParams key "getPrices" (Api.getPricesParams o)).
    split; [intros E t; reflexivity|].
    destruct o as [[[|? ?]|] [?|]]; now repeat split.
  - exists (Api.requestParams key "getTopCountriesByService"
                               (Api.getTopCountriesParams o)).
    split; [intros E t; reflexivity|].
    destruct o as [[[|? ?]|] [?|]]; now repeat split.
  - exists (Api.requestParams key "getTopCountriesByServiceRank"
                               (Api.getTopCountriesParams o)).
    split; [intros E t; reflexivity|].
    destruct o as [[[|? ?]|] [?|]]; now repeat split.
Qed.

(** X17.  The configuration a client is created with: the base URL is
    never empty and the timeout is never 0 or NaN.  An absent or empty
    base URL becomes the service's address and an absent, zero or NaN
    timeout becomes 30000, so a caller cannot switch the timeout off by
    passing 0; a non-empty base URL and any other timeout are kept, and the
    client keeps the key it is given. *)
Theorem client_defaults (options : Api.HeroSMSClientOptions.t) :
  let cfg := Api.clientConfig options in
  Api.baseURL cfg <> []
  /\ Api.truthyNumber (Api.timeout cfg) = true
  /\ (Api.HeroSMSClientOptions.baseUrl options = None
      \/ Api.HeroSMSClientOptions.baseUrl options = Some [] ->
      Api.baseURL cfg = str "https://hero-sms.com/stubs/handler_api.php")
  /\ (forall u, Api.HeroSMSClientOptions.baseUrl options = Some u ->
                u <> [] -> Api.baseURL cfg = u)
  /\ (Api.HeroSMSClientOptions.timeout options = None
      \/ Api.HeroSMSClientOptions.timeout options = Some NaN
      \/ (exists s, Api.HeroSMSClientOptions.timeout options
                    = Some (S754_zero s)) ->
      Api.timeout cfg = ofInteger false 30000)
  /\ ofInteger false 30000 = S754_finite false (1875 * 2 ^ 42) (-38)
  /\ (forall n, Api.HeroSMSClientOptions.timeout options = Some n ->
                Api.truthyNumber n = true -> Api.timeout cfg = n)
  /\ (forall s, Api.HeroSMSClientOptions.timeout options
                = Some (S754_zero s) ->
                Api.timeout cfg = ofInteger false 30000)
  /\ (forall (E : Type) (create : Api.AxiosConfig -> Api.Transport E),
        Api.apiKey (Api.new_HeroSMSClient create options)
        = Api.HeroSMSClientOptions.apiKey options
        /\ Api.httpClient (Api.new_HeroSMSClient create options)
           = create cfg).
Proof.
  destruct options as [key url tmo]; cbv zeta; unfold Api.clientConfig;
    cbn [Api.HeroSMSClientOptions.baseUrl Api.HeroSMSClientOptions.timeout
         Api.HeroSMSClientOptions.apiKey Api.baseURL Api.timeout].
  repeat split.
  - destruct url as [[|? ?]|]; discriminate.
  - destruct tmo as [n|]; [|reflexivity].
    destruct (Api.truthyNumber n) eqn:E; [exact E | reflexivity].
  - intros [-> | ->]; reflexivity.
  - intros u [= ->] Hu; destruct u; [now elim Hu | reflexivity].
  - intros [-> | [-> | [s ->]]]; reflexivity.
  - now intros n [= ->] ->.
  - now intros s [= ->].
Qed.

Lemma client_defaults_witness :
  Api.timeout
    (Api.clientConfig
       {| Api.HeroSMSClientOptions.apiKey := str "k";
          Api.HeroSMSClientOptions.baseUrl := Some [];
          Api.HeroSMSClientOptions.timeout := Some (S754_zero false) |})
  = ofInteger false 30000
  /\ Api.baseURL
       (Api.clientConfig
          {| Api.HeroSMSClientOptions.apiKey := str "k";
             Api.HeroSMSClientOptions.baseUrl := Some [];
             Api.HeroSMSClientOptions.timeout := Some (S754_zero false) |})
     = str "https://hero-sms.com/stubs/handler_api.php"
  /\ Api.timeout
       (Api.clientConfig
          {| Api.HeroSMSClientOptions.apiKey := str "k";
             Api.HeroSMSClientOptions.baseUrl := Some (str "http://x");
             Api.HeroSMSClientOptions.timeout := Some (ofInteger false 5) |})
     = ofInteger false 5
  /\ Api.baseURL
       (Api.clientConfig
          {| Api.HeroSMSClientOptions.apiKey := str "k";
             Api.HeroSMSClientOptions.baseUrl := Some (str "http://x");
             Api.HeroSMSClientOptions.timeout := Some (ofInteger false 5) |})
     = str "http://x".
Proof.
  pose proof (client_defaults
                {| Api.HeroSMSClientOptions.apiKey := str "k";
                   Api.HeroSMSClientOptions.baseUrl := Some [];
                   Api.HeroSMSClientOptions.timeout :=
                     Some (S754_zero false) |})
    as (_ & _ & Hurl & _ & Htmo & _).
  pose proof (client_defaults
                {| Api.HeroSMSClientOptions.apiKey := str "k";
                   Api.HeroSMSClientOptions.baseUrl := Some (str "http://x");
                   Api.HeroSMSClientOptions.timeout :=
                     Some (ofInteger false 5) |})
    as (_ & _ & _ & Hkeep & _ & _ & Hn & _).
  split; [|split; [|split]].
  - apply Htmo; right; right; now exists false.
  - apply Hurl; now right.
  - apply (Hn (ofInteger false 5)); reflexivity.
  - apply (Hkeep (str "http://x")); [reflexivity | discriminate].
Defined.
